(** * JSONValidator: the Flask glue layer of [server.py]

    A shallow embedding of the validation endpoint, of the parser that turns
    the Java validator's console output into a verdict, and of the visitor
    counter, together with the properties stated about them.

    Python strings are sequences of Unicode code points: a character is its
    code point, a string a list of them.  The interpreter's character tables
    ([str.isspace], [str.isdigit]) are not part of the program and are taken
    as parameters.  The [print] calls that log to the console are left out. *)

From Stdlib Require Import Strings.Ascii Strings.String.
From Stdlib Require Import List Bool Arith NArith ZArith QArith Lia.
From Stdlib Require Import Floats.SpecFloat.
Import ListNotations.
Close Scope Q_scope.

Set Implicit Arguments.

(* ================================================================== *)
(** ** Python strings *)
(* ================================================================== *)

Module PyStr.

Definition char := N.
Definition str := list char.

(** An ASCII literal of the source, character by character. *)
Definition lit (s : String.string) : str :=
  List.map N_of_ascii (list_ascii_of_string s).

(** ['\n'] *)
Definition nl : char := 10%N.

Definition str_eqb (a b : str) : bool :=
  if list_eq_dec N.eq_dec a b then true else false.

(** [s.startswith(pre)] *)
Fixpoint startswith (pre s : str) : bool :=
  match pre, s with
  | [], _ => true
  | _ :: _, [] => false
  | a :: pre', b :: s' => N.eqb a b && startswith pre' s'
  end.

(** [sub in s] for two strings: [sub] occurs in [s] as a substring. *)
Fixpoint contains (sub s : str) : bool :=
  startswith sub s ||
  match s with
  | [] => false
  | _ :: s' => contains sub s'
  end.

(** [s.find(sub)]: the index of the first occurrence, [None] for [-1]. *)
Fixpoint find (sub s : str) : option nat :=
  if startswith sub s then Some 0
  else match s with
       | [] => None
       | _ :: s' => option_map S (find sub s')
       end.

(** [s.split(sep, maxsplit)] for a non-empty separator: cut at the first
    occurrence, at most [maxsplit] times, from the left. *)
Fixpoint split_n (sep : str) (maxsplit : nat) (s : str) : list str :=
  match maxsplit with
  | O => [s]
  | S k =>
      match find sep s with
      | None => [s]
      | Some i => firstn i s :: split_n sep k (skipn (i + length sep) s)
      end
  end.

(** [s.split(sep)]: no limit on the number of cuts.  Every cut consumes at
    least one character of [s], so [length s] cuts are never exceeded
    (lemma [split_unfold]). *)
Definition split (sep s : str) : list str := split_n sep (length s) s.

Section Tables.

(** [str.isspace] and [str.isdigit] of the interpreter, on one character. *)
Variable isspace : char -> bool.
Variable isdigit : char -> bool.

Fixpoint lstrip (s : str) : str :=
  match s with
  | [] => []
  | c :: s' => if isspace c then lstrip s' else s
  end.

Definition rstrip (s : str) : str := rev (lstrip (rev s)).

(** [s.strip()] *)
Definition strip (s : str) : str := rstrip (lstrip s).

End Tables.

(** [sub] occurs in [s]: the meaning of [contains] (lemma [contains_iff]). *)
Definition occurs (sub s : str) : Prop := exists a b, s = a ++ sub ++ b.

(** No occurrence of [sep] starts inside [p] when [p] is followed by [s]. *)
Definition clear_before (sep p s : str) : Prop :=
  forall a b, p = a ++ b -> b <> [] -> startswith sep (b ++ s) = false.

(** Truth value of a string: non-empty. *)
Definition truthy (s : str) : bool :=
  match s with [] => false | _ :: _ => true end.

(** The tables restricted to ASCII: space, [\t\n\v\f\r], [\x1c]-[\x1f];
    the digits [0]-[9]. *)
Definition ascii_isspace (c : char) : bool :=
  (N.eqb c 32 || (N.leb 9 c && N.leb c 13) || (N.leb 28 c && N.leb c 31))%N.

Definition ascii_isdigit (c : char) : bool :=
  (N.leb 48 c && N.leb c 57)%N.

End PyStr.

(* ================================================================== *)
(** ** The output parser (lines 125-168 of [validate_json]) *)
(* ================================================================== *)

Module Parser.
Import PyStr.

(** The phrases the parser looks for. *)
Definition CHECK_VALID : str := 9989%N :: lit " VALID JSON".  (* U+2705 *)
Definition VALID : str := lit "VALID JSON".
Definition INVALID : str := lit "INVALID JSON".
Definition WELL_FORMED : str := lit "JSON is well-formed and structurally valid".
Definition WELL_FORMED_SHORT : str := lit "JSON is well-formed".
Definition ERRORS_FOUND : str := lit "Errors Found:".
Definition SEPARATOR : str := lit "==========".
Definition DOT_SPACE : str := lit ". ".
Definition FALLBACK : str := lit "Validation completed".

Record ValidationResult := mkResult {
  valid : bool;
  message : str;
  errors : list str
}.

(** Lines 129-133; [and] binds tighter than [or], as [&&] than [||]. *)
Definition is_valid (output : str) : bool :=
  contains CHECK_VALID output
  || contains VALID output && negb (contains INVALID output)
  || contains WELL_FORMED output.

(** The validity rule as the specification words it: a valid marker and no
    invalid marker, or the well-formed phrase.  Compared with [is_valid]
    in [ParserFacts]. *)
Definition valid_as_specified (output : str) : bool :=
  (contains CHECK_VALID output || contains VALID output)
  && negb (contains INVALID output)
  || contains WELL_FORMED output.

Section Tables.

Variable isspace : char -> bool.
Variable isdigit : char -> bool.

(** The filter of line 139: the stripped line is non-empty and its first
    character is a digit. *)
Definition numbered (line : str) : bool :=
  truthy (strip isspace line) && isdigit (hd 0%N (strip isspace line)).

(** The expression of line 140 on one stripped line.  The index 1 is in
    range when [". "] occurs in the line (lemma [split_once_length]). *)
Definition entry (line : str) : str :=
  if contains DOT_SPACE line then nth 1 (split_n DOT_SPACE 1 line) []
  else line.

(** Line 138, evaluated when the header occurs in the text, so that the
    split at the header has an element 1 (lemma [split_length]). *)
Definition error_section (output : str) : str :=
  nth 0 (split SEPARATOR (nth 1 (split ERRORS_FOUND output) [])) [].

Definition error_lines (section : str) : list str :=
  List.map (strip isspace) (List.filter numbered (split [nl] section)).

(** Lines 136-140. *)
Definition extract_errors (output : str) : list str :=
  if contains ERRORS_FOUND output
  then List.map entry (error_lines (error_section output))
  else [].

(** [enumerate(lines)] *)
Definition enumerate (lines : list str) : list (nat * str) :=
  combine (seq 0 (length lines)) lines.

(** The loops of lines 147-151 and 158-162 over the remaining pairs of
    [enumerate(lines)]; [msg] is the current value of [message_section]. *)
Fixpoint scan (marker : str) (lines : list str)
         (todo : list (nat * str)) (msg : str) : str :=
  match todo with
  | [] => msg
  | (i, line) :: todo' =>
      if contains marker line && (i + 1 <? length lines)
      then let msg' := strip isspace (nth (i + 1) lines []) in
           if truthy msg' then msg'
           else scan marker lines todo' msg'
      else scan marker lines todo' msg
  end.

Definition line_after (marker output msg : str) : str :=
  let lines := split [nl] output in
  scan marker lines (enumerate lines) msg.

(** Lines 143-162. *)
Definition extract_message (output : str) : str :=
  let message_section := FALLBACK in
  if contains INVALID output then
    line_after INVALID output message_section
  else if contains VALID output || contains WELL_FORMED_SHORT output then
    if contains WELL_FORMED output then WELL_FORMED
    else line_after VALID output message_section
  else message_section.

(** The three fields handed to [jsonify] at lines 164-168. *)
Definition parse_output (output : str) : ValidationResult :=
  {| valid := is_valid output;
     message := extract_message output;
     errors := extract_errors output |}.

End Tables.

(** The text of the parser's unit test:
    ["Errors Found:\n1. foo\n2. bar\n=========="]. *)
Definition numbered_lines : str :=
  nl :: lit "1. foo" ++ nl :: lit "2. bar" ++ [nl].

Definition errors_sample : str := ERRORS_FOUND ++ numbered_lines ++ SEPARATOR.

Definition EQUALS : char := 61%N.
Definition FULL_STOP : char := 46%N.

(** The tables agree with the ASCII ones below 128. *)
Definition ascii_tables (isspace isdigit : char -> bool) : Prop :=
  forall c, (c < 128)%N ->
            isspace c = ascii_isspace c /\ isdigit c = ascii_isdigit c.

(** *** Sample console outputs *)

Definition CROSS : char := 10060%N.  (* U+274C *)

(** A valid banner followed by an invalid one. *)
Definition both_banners : str :=
  CHECK_VALID ++ nl :: CROSS :: lit " INVALID JSON".

(** A valid verdict followed by an error section. *)
Definition valid_with_errors : str :=
  lit "VALID JSON" ++ nl :: lit "Errors Found:" ++ nl :: lit "1. foo"
    ++ nl :: lit "==========".

(** An invalid verdict followed by an empty line. *)
Definition invalid_then_blank : str :=
  lit "INVALID JSON" ++ [nl; nl].

(** A valid verdict, a message line, and the well-formed phrase last. *)
Definition phrase_last : str :=
  lit "VALID JSON" ++ nl :: lit "All good" ++ nl :: WELL_FORMED.

(** An invalid verdict with message and error section. *)
Definition invalid_report : str :=
  CROSS :: lit " INVALID JSON" ++ nl :: lit "Unexpected token" ++ nl ::
  lit "Errors Found:" ++ nl :: lit "1. foo" ++ nl :: lit "2. bar" ++ nl ::
  lit "==========".

(** The unit-test text after an earlier header and separator. *)
Definition two_headers : str :=
  ERRORS_FOUND ++ nl :: SEPARATOR ++ nl :: errors_sample.

(** The pairs of [enumerate] that the loop has not visited yet. *)
Definition pending (lines : list str) (k : nat) : list (nat * str) :=
  combine (seq k (length lines - k)) (skipn k lines).

End Parser.


(* ================================================================== *)
(** ** The validation endpoint ([validate_json], lines 72-191) *)
(* ================================================================== *)

Module Endpoint.
Import PyStr Parser.

(** What [request.get_json()] can return. *)
#[warnings="-register-all"]
Inductive json :=
| JNull
| JBool (b : bool)
| JInt (n : Z)
| JFloat (x : spec_float)
| JString (s : str)
| JArray (items : list json)
| JObject (members : list (str * json)).

(** [bool(v)], as [not data] reads it. *)
Definition truth (v : json) : bool :=
  match v with
  | JNull => false
  | JBool b => b
  | JInt n => negb (Z.eqb n 0)
  | JFloat (S754_zero _) => false
  | JFloat _ => true
  | JString s => truthy s
  | JArray items => match items with [] => false | _ => true end
  | JObject members => match members with [] => false | _ => true end
  end.

Fixpoint lookup (key : str) (members : list (str * json)) : option json :=
  match members with
  | [] => None
  | (k, v) :: rest => if str_eqb key k then Some v else lookup key rest
  end.

Definition is_str (key : str) (v : json) : bool :=
  match v with JString s => str_eqb key s | _ => false end.

Inductive http_method := POST | OPTIONS.

(** The outcome of a call into a collaborator: a value, or an exception
    with the text [str(e)]. *)
Inductive attempt (A : Type) :=
| Done (a : A)
| Fails (descr : str).
Arguments Fails {A} descr.

Record request := mkRequest {
  method : http_method;
  get_json : attempt json
}.

(** Exceptions as the two [except] clauses tell them apart. *)
Inductive exn :=
| TimeoutExpired
| Failure (descr : str).

Inductive result (A : Type) :=
| Ret (a : A)
| Raise (e : exn).
Arguments Raise {A} e.

Definition path := str.

(** The files that exist, with two logs: the temporary files created and
    the validator runs attempted. *)
Record world := mkWorld {
  files : list path;
  created : list path;
  invoked : list path
}.

(** The validator process: it cannot be started or its output cannot be
    read, or it runs for some seconds and prints [stdout]. *)
Inductive process :=
| Broken (descr : str)
| Exits (seconds : Q) (stdout : str).

(** The interpreter operations that raise [TypeError] here. *)
Inductive operation := OpIn | OpGetItem | OpWrite.

Inductive payload :=
| Empty
| Json (v : ValidationResult).

Definition response := (payload * nat)%type.

(** Computations that read and change the world and may raise. *)
Definition M (A : Type) := world -> result A * world.

Definition ret {A} (a : A) : M A := fun w => (Ret a, w).
Definition raise {A} (e : exn) : M A := fun w => (Raise e, w).

Definition bind {A B} (m : M A) (k : A -> M B) : M B :=
  fun w => match m w with
           | (Ret a, w') => k a w'
           | (Raise e, w') => (Raise e, w')
           end.

Declare Scope py_scope.
Delimit Scope py_scope with py.
Notation "x <- m ;; k" := (bind m (fun x => k))
  (at level 100, m at next level, right associativity) : py_scope.
Notation "m ;; k" := (bind m (fun _ => k))
  (at level 100, right associativity) : py_scope.
Open Scope py_scope.

(** [try: body finally: cleanup]: the cleanup runs on every way out of
    the body; an exception of the cleanup replaces the body's outcome. *)
Definition try_finally {A} (body : M A) (cleanup : M unit) : M A :=
  fun w => let (r, w1) := body w in
           match cleanup w1 with
           | (Ret _, w2) => (r, w2)
           | (Raise e, w2) => (Raise e, w2)
           end.

(** [try: body except ...: handler] *)
Definition try_except {A} (body : M A) (handler : exn -> M A) : M A :=
  fun w => match body w with
           | (Ret a, w') => (Ret a, w')
           | (Raise e, w') => handler e w'
           end.

Definition of_attempt {A} (a : attempt A) : M A :=
  match a with
  | Done x => ret x
  | Fails d => raise (Failure d)
  end.

Fixpoint remove_path (p : path) (fs : list path) : list path :=
  match fs with
  | [] => []
  | q :: fs' => if str_eqb p q then remove_path p fs' else q :: remove_path p fs'
  end.

Definition exists_path (p : path) (fs : list path) : bool :=
  existsb (str_eqb p) fs.

(** The world once [tempfile] has created [p]. *)
Definition with_temp (p : path) (w : world) : world :=
  {| files := p :: files w; created := p :: created w; invoked := invoked w |}.

Definition QUOTE : char := 34%N.
Definition APOSTROPHE : char := 39%N.

Definition MISSING_FIELD : response :=
  (Json {| valid := false;
           message := lit "No JSON input provided";
           errors := [lit "Request must include " ++ QUOTE :: lit "json"
                        ++ QUOTE :: lit " field"] |}, 400).

Definition TIMEOUT : response :=
  (Json {| valid := false;
           message := lit "Validation timeout";
           errors := [lit "Validation process took too long"] |}, 500).

Definition SERVER_ERROR (descr : str) : response :=
  (Json {| valid := false;
           message := lit "Server error";
           errors := [descr] |}, 500).

Section Environment.

(** The interpreter's tables and the texts of its [TypeError]s. *)
Variable isspace : char -> bool.
Variable isdigit : char -> bool.
Variable type_error : operation -> json -> str.

(** The collaborators: the name [tempfile] picks given the files that
    exist, whether writing and closing the new file fails, and what the
    validator does on a file, with the files that exist afterwards. *)
Variable tempname : list path -> attempt path.
Variable write_fails : path -> str -> option str.
Variable java : path -> list path -> process * list path.

(** ['json' in data] *)
Definition py_in (key : str) (data : json) : M bool :=
  match data with
  | JObject members =>
      ret (match lookup key members with Some _ => true | None => false end)
  | JArray items => ret (existsb (is_str key) items)
  | JString s => ret (contains key s)
  | v => raise (Failure (type_error OpIn v))
  end.

(** [data['json']], reached only after ['json' in data] held. *)
Definition py_getitem (data : json) (key : str) : M json :=
  match data with
  | JObject members =>
      match lookup key members with
      | Some v => ret v
      | None => raise (Failure (APOSTROPHE :: key ++ [APOSTROPHE]))
      end
  | v => raise (Failure (type_error OpGetItem v))
  end.

(** [tempfile.NamedTemporaryFile(mode='w', suffix='.txt', delete=False)] *)
Definition named_temporary_file : M path :=
  fun w => match tempname (files w) with
           | Done p => (Ret p, with_temp p w)
           | Fails d => (Raise (Failure d), w)
           end.

(** [temp_file.write(json_input)] and the close at the end of [with]. *)
Definition write_and_close (p : path) (json_input : json) : M unit :=
  match json_input with
  | JString s =>
      match write_fails p s with
      | None => ret tt
      | Some d => raise (Failure d)
      end
  | v => raise (Failure (type_error OpWrite v))
  end.

(** [subprocess.run([... , temp_filename], timeout=...)], returning
    [result.stdout]. *)
Definition subprocess_run (timeout : Q) (p : path) : M str :=
  fun w =>
    let (proc, fs) := java p (files w) in
    let w' := {| files := fs; created := created w;
                 invoked := p :: invoked w |} in
    match proc with
    | Broken d => (Raise (Failure d), w')
    | Exits seconds stdout =>
        if Qle_bool seconds timeout then (Ret stdout, w')
        else (Raise TimeoutExpired, w')
    end.

Definition os_path_exists (p : path) : M bool :=
  fun w => (Ret (exists_path p (files w)), w).

(** [os.remove(p)]; removing a file that exists succeeds. *)
Definition os_remove (p : path) : M unit :=
  fun w => if exists_path p (files w)
           then (Ret tt, {| files := remove_path p (files w);
                            created := created w;
                            invoked := invoked w |})
           else (Raise (Failure (lit "No such file or directory")), w).

(** Lines 170-173. *)
Definition cleanup (temp_filename : path) : M unit :=
  present <- os_path_exists temp_filename ;;
  if present then os_remove temp_filename else ret tt.

(** Lines 100-173. *)
Definition run_validator (temp_filename : path) : M response :=
  try_finally
    (output <- subprocess_run 10%Q temp_filename ;;
     ret (Json (parse_output isspace isdigit output), 200))
    (cleanup temp_filename).

(** Lines 84-173: the body of the outer [try]. *)
Definition guarded (req : request) : M response :=
  data <- of_attempt (get_json req) ;;
  missing <- (if negb (truth data) then ret true
              else (found <- py_in (lit "json") data ;; ret (negb found))) ;;
  if missing : bool then ret MISSING_FIELD
  else
    json_input <- py_getitem data (lit "json") ;;
    temp_filename <- named_temporary_file ;;
    write_and_close temp_filename json_input ;;
    run_validator temp_filename.

(** Lines 175-191: the two [except] clauses. *)
Definition handler (e : exn) : M response :=
  match e with
  | TimeoutExpired => ret TIMEOUT
  | Failure descr => ret (SERVER_ERROR descr)
  end.

Definition validate_json (req : request) : M response :=
  match method req with
  | OPTIONS => ret (Empty, 204)
  | POST => try_except (guarded req) handler
  end.

End Environment.

(** The values [not data] takes for empty. *)
Definition falsy (data : json) : Prop :=
  data = JNull \/ data = JBool false \/ data = JInt 0 \/
  (exists sign, data = JFloat (S754_zero sign)) \/
  data = JString [] \/ data = JArray [] \/ data = JObject [].

(** Writing [json_input] to the new file raises, with text [descr]. *)
Definition write_raises (type_error : operation -> json -> str)
           (write_fails : path -> str -> option str)
           (p : path) (json_input : json) (descr : str) : Prop :=
  match json_input with
  | JString s => write_fails p s = Some descr
  | v => descr = type_error OpWrite v
  end.

(** A sample environment: ASCII tables, one temporary name, a disk that
    takes every write, and a validator given by [proc]. *)
Definition sample_type_error (op : operation) (v : json) : str :=
  match op with
  | OpIn => lit "argument is not iterable"
  | OpGetItem => lit "indices must be integers"
  | OpWrite => lit "write() argument must be str"
  end.

Definition sample_temp : path := lit "/tmp/tmpabc.txt".

Definition sample_validate (proc : process) : request -> M response :=
  validate_json ascii_isspace ascii_isdigit sample_type_error
    (fun _ => Done sample_temp) (fun _ _ => None)
    (fun _ fs => (proc, fs)).

Definition post (data : json) : request := mkRequest POST (Done data).

Definition empty_world : world := mkWorld [] [] [].

Definition sample_body : json :=
  JObject [(lit "json", JString (lit "[1, 2, 3,]"))].

Definition java_missing : str :=
  lit "[Errno 2] No such file or directory: 'java'".

End Endpoint.

(* ================================================================== *)
(** ** The visitor counter (lines 24-65) *)
(* ================================================================== *)

Module Counter.

(** [visitor_count.json]: [None] when the file is missing or unreadable,
    which [get_visitor_count_from_file] reads as 0. *)
Definition count_file := option Z.

(** Where one POST handler stands. *)
Inductive pc :=
| Start                      (* line 55, before [with COUNT_LOCK] *)
| Reading                    (* lines 31-39, holding the lock *)
| Counted (current_count : Z)  (* line 56, lock released *)
| Saving (new_count : Z)     (* lines 44-45, holding the lock *)
| Finished (new_count : Z).  (* line 60 *)

Record system := mkSystem {
  stored : count_file;
  locked : bool;              (* [COUNT_LOCK] *)
  handlers : list pc
}.

(** The body of [get_visitor_count_from_file] under the lock (lines
    31-39): the stored count, 0 for a missing or unreadable file. *)
Definition get_visitor_count_from_file (f : count_file) : Z :=
  match f with Some n => n | None => 0%Z end.

(** The body of [save_visitor_count_to_file] under the lock (lines 44-45). *)
Definition save_visitor_count_to_file (count : Z) : count_file := Some count.

Fixpoint set_nth (i : nat) (x : pc) (l : list pc) : list pc :=
  match l, i with
  | [], _ => []
  | _ :: l', O => x :: l'
  | y :: l', S i' => y :: set_nth i' x l'
  end.

(** One step of the POST handler [i] of [visitor_counter] (lines 53-60):
    it takes the lock, reads and releases it, takes the lock again, writes
    and releases it.  [None] when the handler waits for the lock, has
    finished, or does not exist. *)
Definition step (i : nat) (s : system) : option system :=
  match nth_error (handlers s) i with
  | Some Start =>
      if locked s then None
      else Some (mkSystem (stored s) true (set_nth i Reading (handlers s)))
  | Some Reading =>
      Some (mkSystem (stored s) false
              (set_nth i (Counted (get_visitor_count_from_file (stored s)))
               (handlers s)))
  | Some (Counted c) =>
      if locked s then None
      else Some (mkSystem (stored s) true (set_nth i (Saving (c + 1)) (handlers s)))
  | Some (Saving n) =>
      Some (mkSystem (save_visitor_count_to_file n) false
              (set_nth i (Finished n) (handlers s)))
  | Some (Finished _) => None
  | None => None
  end.

(** A schedule names the handler that moves at each step. *)
Fixpoint run (schedule : list nat) (s : system) : option system :=
  match schedule with
  | [] => Some s
  | i :: rest =>
      match step i s with
      | Some s' => run rest s'
      | None => None
      end
  end.

Definition finished (p : pc) : bool :=
  match p with Finished _ => true | _ => false end.

(** [n] POSTs arrive while the file holds [f]. *)
Definition initial (f : count_file) (n : nat) : system :=
  mkSystem f false (repeat Start n).

(** The handlers one after the other, each running to its end. *)
Fixpoint serial (k n : nat) : list nat :=
  match n with
  | O => []
  | S n' => [k; k; k; k] ++ serial (S k) n'
  end.

End Counter.

(* ================================================================== *)
(** ** The visitor counter: what interleavings keep *)
(* ================================================================== *)

Module CounterInv.
Import Counter.

(** The handler is inside a [with COUNT_LOCK] block. *)
Definition holding (p : pc) : bool :=
  match p with
  | Reading | Saving _ => true
  | _ => false
  end.

Definition count_if (P : pc -> bool) (l : list pc) : nat :=
  length (List.filter P l).

(** The lock is held exactly when one handler is inside a block, and no
    two handlers are. *)
Definition lock_ok (s : system) : Prop :=
  count_if holding (handlers s) = if locked s then 1 else 0.

(** The steps a handler has taken. *)
Definition progress (p : pc) : nat :=
  match p with
  | Start => 0
  | Reading => 1
  | Counted _ => 2
  | Saving _ => 3
  | Finished _ => 4
  end.

Definition steps_taken (s : system) : nat :=
  list_sum (List.map progress (handlers s)).

(** What a handler may hold when the count was [c] at the start and [k]
    handlers have finished. *)
Definition within (c : Z) (k : nat) (p : pc) : Prop :=
  match p with
  | Start | Reading => True
  | Counted x => (c <= x <= c + Z.of_nat k)%Z
  | Saving n => (c + 1 <= n <= c + Z.of_nat k + 1)%Z
  | Finished n => (c + 1 <= n <= c + Z.of_nat k)%Z
  end.

Definition bounded (c : Z) (s : system) : Prop :=
  let k := count_if finished (handlers s) in
  let cur := get_visitor_count_from_file (stored s) in
  (c <= cur <= c + Z.of_nat k)%Z /\
  (1 <= k -> (c + 1 <= cur)%Z) /\
  Forall (within c k) (handlers s).

End CounterInv.

(* ================================================================== *)
(** ** The counter endpoint, one request at a time (lines 28-65) *)
(* ================================================================== *)

Module Visitor.
Import PyStr Endpoint.

(** What reading [visitor_count.json] does. *)
Inductive counter_file :=
| Missing                 (* [os.path.exists] is false *)
| Corrupt                 (* [open] or [json.load] raises [IOError] or
                             [JSONDecodeError] *)
| Garbled (descr : str)   (* [open] or [json.load] raises something else *)
| Holds (data : json).    (* [json.load] returns [data] *)

Inductive verb := Get | Post | Options.

Inductive body :=
| Nothing                 (* [''] *)
| CountBody (count : json).  (* [jsonify({'count': count})] *)

Definition reply := (body * nat)%type.

Section Interpreter.

(** The texts of the [AttributeError] of [data.get] and of the [TypeError]
    of [current_count + 1], the interpreter's [x + 1] on floats, and
    whether writing the file fails: with which text, leaving which file. *)
Variable attribute_error : json -> str.
Variable add_error : json -> str.
Variable float_succ : spec_float -> spec_float.
Variable save_fails : json -> counter_file -> option (str * counter_file).

(** Lines 28-39.  Only [IOError] and [JSONDecodeError] are caught; a
    [data] that is not a dict has no [get]. *)
Definition get_visitor_count_from_file (f : counter_file) : attempt json :=
  match f with
  | Missing => Done (JInt 0)
  | Corrupt => Done (JInt 0)
  | Garbled descr => Fails descr
  | Holds (JObject members) =>
      Done (match lookup (lit "count") members with
            | Some v => v
            | None => JInt 0
            end)
  | Holds data => Fails (attribute_error data)
  end.

(** Lines 41-45: [json.dump({'count': count}, f)]. *)
Definition save_visitor_count_to_file (count : json) (f : counter_file)
  : attempt unit * counter_file :=
  match save_fails count f with
  | None => (Done tt, Holds (JObject [(lit "count", count)]))
  | Some (descr, f') => (Fails descr, f')
  end.

(** [current_count + 1] of line 56; [True] and [False] are the integers 1
    and 0. *)
Definition add_one (current_count : json) : attempt json :=
  match current_count with
  | JInt n => Done (JInt (n + 1))
  | JBool b => Done (JInt ((if b then 1 else 0) + 1))
  | JFloat x => Done (JFloat (float_succ x))
  | v => Fails (add_error v)
  end.

(** Lines 48-65; an exception that leaves the handler is [Fails]. *)
Definition visitor_counter (m : verb) (f : counter_file)
  : attempt reply * counter_file :=
  match m with
  | Options => (Done (Nothing, 204), f)
  | Post =>
      match get_visitor_count_from_file f with
      | Fails descr => (Fails descr, f)
      | Done current_count =>
          match add_one current_count with
          | Fails descr => (Fails descr, f)
          | Done new_count =>
              match save_visitor_count_to_file new_count f with
              | (Fails descr, f') => (Fails descr, f')
              | (Done _, f') => (Done (CountBody new_count, 200), f')
              end
          end
      end
  | Get =>
      match get_visitor_count_from_file f with
      | Fails descr => (Fails descr, f)
      | Done current_count => (Done (CountBody current_count, 200), f)
      end
  end.

(** Requests served one after the other. *)
Fixpoint serve (requests : list verb) (f : counter_file)
  : list (attempt reply) * counter_file :=
  match requests with
  | [] => ([], f)
  | m :: rest =>
      let (r, f1) := visitor_counter m f in
      let (rs, f2) := serve rest f1 in
      (r :: rs, f2)
  end.

End Interpreter.

(** The replies to expect from a counter that stands at [n]. *)
Fixpoint expected (n : Z) (requests : list verb) : list (attempt reply) :=
  match requests with
  | [] => []
  | Get :: rest => Done (CountBody (JInt n), 200) :: expected n rest
  | Post :: rest => Done (CountBody (JInt (n + 1)), 200) :: expected (n + 1) rest
  | Options :: rest => Done (Nothing, 204) :: expected n rest
  end.

Definition is_post (m : verb) : bool :=
  match m with Post => true | _ => false end.

Definition posts (requests : list verb) : nat :=
  length (List.filter is_post requests).

Definition is_object (data : json) : bool :=
  match data with JObject _ => true | _ => false end.

(** The values [+ 1] accepts. *)
Definition is_number (v : json) : bool :=
  match v with JInt _ | JBool _ | JFloat _ => true | _ => false end.

(** What a counter file that holds [data], not a dict, answers. *)
Definition refusal (attribute_error : json -> str) (data : json) (m : verb)
  : attempt reply :=
  match m with
  | Options => Done (Nothing, 204)
  | _ => Fails (attribute_error data)
  end.

(** The file after a POST that stored [n]. *)
Definition stands_at (n : Z) : counter_file :=
  Holds (JObject [(lit "count", JInt n)]).

(** The file as the interleaving model of [Counter] sees it. *)
Definition abstraction (f : counter_file) : Counter.count_file :=
  match f with
  | Holds (JObject members) =>
      match lookup (lit "count") members with
      | Some (JInt n) => Some n
      | _ => None
      end
  | _ => None
  end.

(** A sample interpreter and a disk that takes every write. *)
Definition sample_counter : verb -> counter_file -> attempt reply * counter_file :=
  visitor_counter (fun _ => lit "object has no attribute 'get'")
    (fun _ => lit "unsupported operand type(s) for +")
    (fun x => x) (fun _ _ => None).

Definition sample_serve : list verb -> counter_file
                          -> list (attempt reply) * counter_file :=
  serve (fun _ => lit "object has no attribute 'get'")
    (fun _ => lit "unsupported operand type(s) for +")
    (fun x => x) (fun _ _ => None).

End Visitor.

(* ================================================================== *)
(** ** The health endpoint (lines 218-236) *)
(* ================================================================== *)

Module Health.
Import PyStr.

(** [subprocess.run(['java', '-version'], capture_output=True, timeout=5)]:
    it raises, or the process runs for some seconds and returns a code. *)
Inductive probe :=
| Unavailable (descr : str)
| Ran (seconds : Q) (returncode : Z).

Record health := mkHealth {
  status : str;
  java_available : bool;
  validator_path : str
}.

(** Lines 222-230: the bare [except] turns every exception, the timeout
    included, into [False]. *)
Definition java_check (timeout : Q) (p : probe) : bool :=
  match p with
  | Unavailable _ => false
  | Ran seconds returncode =>
      if Qle_bool seconds timeout then Z.eqb returncode 0 else false
  end.

(** Lines 219-236, with [JAVA_CLASS_PATH] of line 21. *)
Definition health_check (JAVA_CLASS_PATH : str) (p : probe) : health * nat :=
  let available := java_check 5%Q p in
  ({| status := if available then lit "healthy" else lit "degraded";
      java_available := available;
      validator_path := JAVA_CLASS_PATH |}, 200).

End Health.

(* ================================================================== *)
(** ** Joining strings *)
(* ================================================================== *)

Module PyJoin.
Import PyStr.

(** [sep.join(pieces)] *)
Definition join (sep : str) (pieces : list str) : str :=
  match pieces with
  | [] => []
  | first :: rest => first ++ List.flat_map (fun piece => sep ++ piece) rest
  end.

Definition SPACE : char := 32%N.

End PyJoin.

(* ================================================================== *)
(** ** The validation endpoint: what one request does to the world *)
(* ================================================================== *)

Module Effects.
Import PyStr Endpoint.

(** The three things a request can have done when the handler returns:
    nothing; created the temporary file and left it; created it, run the
    validator on it once, and removed it. *)
Inductive effect (w w' : world) : Prop :=
| Untouched :
    created w' = created w -> invoked w' = invoked w ->
    files w' = files w -> effect w w'
| Leaked (p : path) :
    created w' = p :: created w -> invoked w' = invoked w ->
    files w' = p :: files w -> effect w w'
| Ran (p : path) :
    created w' = p :: created w -> invoked w' = p :: invoked w ->
    ~ In p (files w') -> effect w w'.

(** A number that is not zero, or [true]. *)
Definition truthy_scalar (data : json) : bool :=
  match data with
  | JBool b => b
  | JInt n => negb (Z.eqb n 0)
  | JFloat (S754_zero _) => false
  | JFloat _ => true
  | _ => false
  end.

(** ['json' in data] for an array or a string that is not empty. *)
Definition mentions_json (data : json) : option bool :=
  match data with
  | JArray (item :: items) => Some (existsb (is_str (lit "json")) (item :: items))
  | JString (c :: s) => Some (contains (lit "json") (c :: s))
  | _ => None
  end.

End Effects.

(* ================================================================== *)
(** ** The error section and the bodies without "json" *)
(* ================================================================== *)

Module Shapes.
Import PyStr Parser Endpoint.

(** Where a section [sec] ends, [rest] being the text after it: at the
    end of the text, before the first "=" of a run of ten, or before the
    next header. *)
Definition ends_section (sec rest : str) : Prop :=
  rest = [] \/
  (startswith SEPARATOR rest = true /\ last sec 0%N <> EQUALS) \/
  startswith ERRORS_FOUND rest = true.

(** [sec] is the section of the first header of [pre], header, [sec],
    [rest]. *)
Definition first_section (pre sec rest : str) : Prop :=
  ~ occurs ERRORS_FOUND pre /\
  ~ occurs ERRORS_FOUND sec /\
  ~ occurs SEPARATOR sec /\
  ends_section sec rest.

(** The entries read from a section: of its lines, those that pass the
    filter of line 139, stripped, each cut by line 140. *)
Definition entries (isspace isdigit : char -> bool) (sec : str) : list str :=
  List.map entry
    (List.map (strip isspace)
       (List.filter (numbered isspace isdigit) (split [nl] sec))).

(** The line "JSON is well-formed and structurally valid". *)
Definition well_formed_line : str := WELL_FORMED ++ [nl].


End Shapes.

(* ================================================================== *)
(** ** Facts about strings *)
(* ================================================================== *)

Module PyStrFacts.
Import PyStr.

Lemma startswith_iff (p s : str) :
  startswith p s = true <-> exists r, s = p ++ r.
Proof.
  revert s; induction p as [|a p IH]; intros s; simpl.
  - split; [intros _; now exists s | reflexivity].
  - destruct s as [|b s].
    + split; [discriminate | intros [r Hr]; discriminate].
    + rewrite andb_true_iff, N.eqb_eq, IH. split.
      * intros [-> [r ->]]. now exists r.
      * intros [r Hr]. injection Hr as -> ->. split; [reflexivity | now exists r].
Qed.

Lemma startswith_app (p r : str) : startswith p (p ++ r) = true.
Proof. apply startswith_iff. now exists r. Qed.

Lemma contains_iff (sub s : str) : contains sub s = true <-> occurs sub s.
Proof.
  unfold occurs. induction s as [|c s IH].
  - simpl. rewrite orb_false_r, startswith_iff. split.
    + intros [r Hr]. exists [], r. exact Hr.
    + intros [a [b H]]. destruct a; [now exists b | discriminate].
  - simpl. rewrite orb_true_iff, startswith_iff, IH. split.
    + intros [[r Hr] | [a [b H]]].
      * exists [], r. exact Hr.
      * exists (c :: a), b. simpl. now rewrite H.
    + intros [a [b H]]. destruct a as [|x a].
      * left. now exists b.
      * right. injection H as _ H. now exists a, b.
Qed.

Lemma contains_false_iff (sub s : str) :
  contains sub s = false <-> ~ occurs sub s.
Proof.
  rewrite <- contains_iff. destruct (contains sub s); intuition congruence.
Qed.

Lemma find_None_iff (sub s : str) :
  find sub s = None <-> contains sub s = false.
Proof.
  induction s as [|c s IH]; simpl.
  - destruct (startswith sub []); simpl; split; easy.
  - destruct (startswith sub (c :: s)); simpl; [split; easy|].
    rewrite <- IH. destruct (find sub s); simpl; split; easy.
Qed.

Lemma find_Some_split (sub s : str) (i : nat) :
  find sub s = Some i ->
  s = firstn i s ++ sub ++ skipn (i + length sub) s.
Proof.
  revert i; induction s as [|c s IH]; intros i; simpl.
  - destruct (startswith sub []) eqn:E; [|discriminate].
    intros [= <-]. apply startswith_iff in E as [r Hr].
    destruct sub; [reflexivity | discriminate].
  - destruct (startswith sub (c :: s)) eqn:E.
    + intros [= <-]. apply startswith_iff in E as [r Hr].
      simpl. rewrite Hr at 2. rewrite skipn_app, Nat.sub_diag, skipn_all. simpl.
      exact Hr.
    + destruct (find sub s) as [j|]; simpl; [|discriminate].
      intros [= <-]. simpl. f_equal. now apply IH.
Qed.

Lemma startswith_length (p s : str) :
  startswith p s = true -> length p <= length s.
Proof.
  intros H. apply startswith_iff in H as [r ->]. rewrite length_app. lia.
Qed.

Lemma find_Some_bound (sub s : str) (i : nat) :
  find sub s = Some i -> i + length sub <= length s.
Proof.
  revert i; induction s as [|c s IH]; intros i; simpl.
  - destruct (startswith sub []) eqn:E; [|discriminate].
    intros [= <-]. now apply startswith_length in E.
  - destruct (startswith sub (c :: s)) eqn:E.
    + intros [= <-]. now apply startswith_length in E.
    + destruct (find sub s) as [j|]; simpl; [|discriminate].
      intros [= <-]. specialize (IH j eq_refl). lia.
Qed.

Lemma find_startswith (sub r : str) : find sub (sub ++ r) = Some 0.
Proof.
  destruct sub as [|a sub]; [now destruct r|].
  cbn [find app]. change (a :: sub ++ r) with ((a :: sub) ++ r).
  now rewrite startswith_app.
Qed.

Lemma find_app_clear (sep p s : str) :
  clear_before sep p s ->
  find sep (p ++ s) = option_map (Nat.add (length p)) (find sep s).
Proof.
  unfold clear_before. induction p as [|c p IH]; intros H.
  - simpl. now destruct (find sep s).
  - cbn [app find length].
    change (c :: p ++ s) with ((c :: p) ++ s).
    rewrite (H [] (c :: p) eq_refl) by discriminate.
    rewrite IH.
    + now destruct (find sep s).
    + intros a b -> Hb. apply (H (c :: a) b); [reflexivity | exact Hb].
Qed.

Lemma find_first (sep p r : str) :
  clear_before sep p (sep ++ r) -> find sep (p ++ sep ++ r) = Some (length p).
Proof.
  intros H. rewrite find_app_clear by exact H.
  rewrite find_startswith. simpl. now rewrite Nat.add_0_r.
Qed.

(** A prefix none of whose characters starts the separator is clear. *)
Lemma clear_before_head (c : char) (sep p s : str) :
  ~ In c p -> clear_before (c :: sep) p s.
Proof.
  intros Hc a b -> Hb. destruct b as [|d b]; [easy|]. simpl.
  destruct (N.eqb_spec c d) as [->|]; [|reflexivity].
  exfalso. apply Hc. apply in_or_app. right. now left.
Qed.

(** A separator whose first character does not occur again in it cannot
    overlap itself: when it does not occur in [p], its first occurrence in
    [p ++ sep ++ r] is the one after [p]. *)
Lemma clear_before_border_free (c : char) (sep p r : str) :
  ~ In c sep ->
  contains (c :: sep) p = false ->
  clear_before (c :: sep) p ((c :: sep) ++ r).
Proof.
  intros Hc Hp a b -> Hb.
  destruct (startswith (c :: sep) (b ++ (c :: sep) ++ r)) eqn:E; [|reflexivity].
  exfalso. apply startswith_iff in E as [x Hx].
  apply app_eq_app in Hx as [l [[-> Hl] | [Hl Hr]]].
  - apply contains_false_iff in Hp. apply Hp.
    now exists a, l.
  - destruct b as [|d b]; [easy|].
    injection Hl as <- ->.
    destruct l as [|e l].
    + apply contains_false_iff in Hp. apply Hp.
      exists a, []. now rewrite !app_nil_r.
    + injection Hr as <- _. apply Hc. apply in_or_app. right. now left.
Qed.

Section Split.

Variable sep : str.
Hypothesis sep_nonempty : sep <> [].

Lemma find_nil : find sep [] = None.
Proof. destruct sep; [easy | reflexivity]. Qed.

Lemma split_n_enough (n m : nat) (s : str) :
  length s <= n -> length s <= m -> split_n sep n s = split_n sep m s.
Proof.
  revert m s; induction n as [|n IH]; intros m s Hn Hm.
  - destruct s; [|simpl in Hn; lia].
    destruct m; cbn [split_n]; [reflexivity | now rewrite find_nil].
  - destruct m as [|m].
    + destruct s; [|simpl in Hm; lia]. cbn [split_n]. now rewrite find_nil.
    + cbn [split_n]. destruct (find sep s) as [i|] eqn:E; [|reflexivity].
      f_equal. apply find_Some_bound in E.
      assert (0 < length sep) by (destruct sep; [easy | simpl; lia]).
      apply IH; rewrite length_skipn; lia.
Qed.

(** [split] is the unbounded split: its defining equation. *)
Lemma split_unfold (s : str) :
  split sep s =
  match find sep s with
  | None => [s]
  | Some i => firstn i s :: split sep (skipn (i + length sep) s)
  end.
Proof.
  unfold split. destruct s as [|c s].
  - cbn [length split_n]. now rewrite find_nil.
  - cbn [length split_n]. destruct (find sep (c :: s)) as [i|] eqn:E; [|reflexivity].
    f_equal. apply find_Some_bound in E.
    assert (0 < length sep) by (destruct sep; [easy | simpl; lia]).
    apply split_n_enough; rewrite ?length_skipn; cbn [length] in *; lia.
Qed.

Lemma split_length (s : str) :
  contains sep s = true -> 2 <= length (split sep s).
Proof.
  intros H. rewrite split_unfold.
  destruct (find sep s) as [i|] eqn:E.
  - cbn [length]. rewrite split_unfold.
    destruct (find sep (skipn _ _)); cbn [length]; lia.
  - apply find_None_iff in E. congruence.
Qed.

Lemma split_first (p r : str) :
  clear_before sep p (sep ++ r) ->
  split sep (p ++ sep ++ r) = p :: split sep r.
Proof.
  intros H. rewrite split_unfold, find_first by exact H.
  rewrite firstn_app, Nat.sub_diag, firstn_all. simpl. rewrite app_nil_r.
  f_equal. f_equal.
  rewrite skipn_app, skipn_all2 by lia.
  replace (length p + length sep - length p) with (length sep) by lia.
  simpl. rewrite skipn_app, Nat.sub_diag, skipn_all. reflexivity.
Qed.

(** A split at most once gives two pieces when the separator occurs. *)
Lemma split_once_length (s : str) :
  contains sep s = true -> length (split_n sep 1 s) = 2.
Proof.
  intros H. cbn [split_n]. destruct (find sep s) eqn:E; [reflexivity|].
  apply find_None_iff in E. congruence.
Qed.

Lemma split_nth0 (s : str) :
  nth 0 (split sep s) [] =
  match find sep s with None => s | Some i => firstn i s end.
Proof. rewrite split_unfold. now destruct (find sep s). Qed.

(** The first piece of a split passes over a clear prefix. *)
Lemma split_nth0_app (p s : str) :
  clear_before sep p s ->
  nth 0 (split sep (p ++ s)) [] = p ++ nth 0 (split sep s) [].
Proof.
  intros H. rewrite !split_nth0, find_app_clear by exact H.
  destruct (find sep s) as [i|]; simpl; [|reflexivity].
  rewrite firstn_app, firstn_all2 by lia.
  now replace (length p + i - length p) with i by lia.
Qed.

End Split.

(** When the character after [p] is not in [sep], no occurrence of [sep]
    runs from inside [p] into what follows. *)
Lemma clear_before_next (d : char) (sep p s : str) :
  contains sep p = false -> ~ In d sep -> clear_before sep p (d :: s).
Proof.
  intros Hp Hd a b -> Hb.
  destruct (startswith sep (b ++ d :: s)) eqn:E; [|reflexivity].
  exfalso. apply contains_false_iff in Hp.
  apply startswith_iff in E as [x Hx].
  apply app_eq_app in Hx as [l [[-> Hl] | [-> Hr]]].
  - apply Hp. now exists a, l.
  - destruct l as [|e l].
    + apply Hp. exists a, []. now rewrite !app_nil_r.
    + injection Hr as <- _. apply Hd. apply in_or_app. right. now left.
Qed.

(** A separator made of one repeated character [d]: when it does not occur
    in [p] and [p] does not end with [d], no occurrence starts inside [p]. *)
Lemma clear_before_run (d : char) (sep p s : str) :
  Forall (eq d) sep ->
  contains sep p = false -> last p 0%N <> d -> clear_before sep p s.
Proof.
  intros Hrun Hp Hlast a b -> Hb.
  destruct (startswith sep (b ++ s)) eqn:E; [|reflexivity].
  exfalso. apply contains_false_iff in Hp.
  apply startswith_iff in E as [x Hx].
  apply app_eq_app in Hx as [l [[-> Hl] | [Hsep Hr]]].
  - apply Hp. now exists a, l.
  - destruct (exists_last Hb) as [b' [z ->]].
    apply Hlast. rewrite app_assoc, last_last.
    rewrite Forall_forall in Hrun. symmetry. apply Hrun.
    rewrite Hsep. apply in_or_app. left. apply in_or_app. right. now left.
Qed.

Lemma split_n_first (sep p r : str) (n : nat) :
  clear_before sep p (sep ++ r) ->
  split_n sep (S n) (p ++ sep ++ r) = p :: split_n sep n r.
Proof.
  intros H. cbn [split_n]. rewrite find_first by exact H.
  rewrite firstn_app, Nat.sub_diag, firstn_all. simpl. rewrite app_nil_r.
  f_equal. f_equal.
  rewrite skipn_app, skipn_all2 by lia.
  replace (length p + length sep - length p) with (length sep) by lia.
  simpl. rewrite skipn_app, Nat.sub_diag, skipn_all. reflexivity.
Qed.

Lemma occurs_refl (s : str) : occurs s s.
Proof. exists [], []. simpl. now rewrite app_nil_r. Qed.

Lemma occurs_trans (a b c : str) : occurs a b -> occurs b c -> occurs a c.
Proof.
  intros [x [y ->]] [u [v ->]]. exists (u ++ x), (y ++ v).
  now rewrite <- !app_assoc.
Qed.

Lemma occurs_In (c : char) (a s : str) : occurs a s -> In c a -> In c s.
Proof.
  intros [x [y ->]] H. apply in_or_app. right. apply in_or_app. now left.
Qed.

Lemma contains_trans (a b c : str) :
  contains a b = true -> contains b c = true -> contains a c = true.
Proof. rewrite !contains_iff. apply occurs_trans. Qed.

(** Every piece of a split is a substring of the text. *)
Lemma split_n_occurs (sep : str) (n : nat) (s line : str) :
  In line (split_n sep n s) -> occurs line s.
Proof.
  revert s; induction n as [|n IH]; intros s; cbn [split_n].
  - intros [<- | []]. apply occurs_refl.
  - destruct (find sep s) as [i|].
    + intros [<- | H].
      * exists [], (skipn i s). simpl. now rewrite firstn_skipn.
      * apply IH in H. apply (occurs_trans H).
        exists (firstn (i + length sep) s), []. rewrite app_nil_r.
        now rewrite firstn_skipn.
    + intros [<- | []]. apply occurs_refl.
Qed.

Lemma split_occurs (sep s line : str) : In line (split sep s) -> occurs line s.
Proof. apply split_n_occurs. Qed.

Section Strip.

Variable isspace : char -> bool.

Lemma lstrip_spaces (ws s : str) :
  forallb isspace ws = true -> lstrip isspace (ws ++ s) = lstrip isspace s.
Proof.
  induction ws as [|c ws IH]; simpl; [reflexivity|].
  rewrite andb_true_iff. intros [-> H]. now apply IH.
Qed.

Lemma lstrip_decomp (s : str) :
  exists ws, s = ws ++ lstrip isspace s /\ forallb isspace ws = true.
Proof.
  induction s as [|c s [ws [E F]]]; simpl.
  - now exists [].
  - destruct (isspace c) eqn:Hc.
    + exists (c :: ws). simpl. rewrite Hc, F. split; [now f_equal | reflexivity].
    + now exists [].
Qed.

Lemma lstrip_head (s : str) (c : char) (r : str) :
  lstrip isspace s = c :: r -> isspace c = false.
Proof.
  induction s as [|d s IH]; simpl; [discriminate|].
  destruct (isspace d) eqn:Hd; [exact IH|]. now intros [= <- _].
Qed.

Lemma lstrip_keeps_last (x : str) (c : char) :
  isspace c = false -> exists t, lstrip isspace (x ++ [c]) = t ++ [c].
Proof.
  intros Hc. induction x as [|d x [t IH]]; simpl.
  - rewrite Hc. now exists [].
  - destruct (isspace d); [now exists t|]. now exists (d :: x).
Qed.

(** The stripped line starts with the first character of the line that
    is not white space. *)
Lemma strip_first (ws : str) (c : char) (rest : str) :
  forallb isspace ws = true -> isspace c = false ->
  exists t, strip isspace (ws ++ c :: rest) = c :: t.
Proof.
  intros Hws Hc. unfold strip, rstrip.
  rewrite lstrip_spaces by exact Hws. simpl. rewrite Hc. simpl.
  destruct (lstrip_keeps_last (rev rest) Hc) as [t ->].
  exists (rev t). now rewrite rev_app_distr.
Qed.

Lemma strip_blank (s : str) :
  forallb isspace s = true -> strip isspace s = [].
Proof.
  intros H. unfold strip, rstrip.
  rewrite <- (app_nil_r s), lstrip_spaces by exact H. reflexivity.
Qed.

(** A line either is blank or splits at its first non-blank character. *)
Lemma first_nonblank (s : str) :
  forallb isspace s = true \/
  exists ws c rest, s = ws ++ c :: rest /\
                    forallb isspace ws = true /\ isspace c = false.
Proof.
  destruct (lstrip_decomp s) as [ws [E F]].
  destruct (lstrip isspace s) as [|c r] eqn:L.
  - left. rewrite E, app_nil_r. exact F.
  - right. exists ws, c, r. split; [exact E|]. split; [exact F|].
    exact (lstrip_head _ L).
Qed.

End Strip.

(** [strip] reads the table only at the characters of its argument. *)
Lemma lstrip_ext (f g : char -> bool) (s : str) :
  (forall c, In c s -> f c = g c) -> lstrip f s = lstrip g s.
Proof.
  induction s as [|c s IH]; intros H; simpl; [reflexivity|].
  rewrite <- (H c) by now left.
  destruct (f c); [|reflexivity]. apply IH. intros d Hd. apply H. now right.
Qed.

Lemma lstrip_incl (f : char -> bool) (s : str) (c : char) :
  In c (lstrip f s) -> In c s.
Proof.
  induction s as [|d s IH]; simpl; [easy|].
  destruct (f d); [intros H; right; now apply IH | easy].
Qed.

Lemma strip_ext (f g : char -> bool) (s : str) :
  (forall c, In c s -> f c = g c) -> strip f s = strip g s.
Proof.
  intros H. unfold strip, rstrip.
  rewrite (lstrip_ext f g s H). f_equal. apply lstrip_ext.
  intros c Hc. apply H. apply in_rev in Hc. exact (lstrip_incl _ _ _ Hc).
Qed.

Lemma strip_incl (f : char -> bool) (s : str) (c : char) :
  In c (strip f s) -> In c s.
Proof.
  unfold strip, rstrip. intros H. apply in_rev in H.
  apply lstrip_incl in H. apply in_rev in H. exact (lstrip_incl _ _ _ H).
Qed.

End PyStrFacts.

(* ================================================================== *)
(** ** The output parser: validity, message and errors *)
(* ================================================================== *)

Module ParserFacts.
Import PyStr Parser PyStrFacts.

(** *** Validity *)

Lemma is_valid_true_iff (output : str) :
  is_valid output = true <->
  contains CHECK_VALID output = true \/
  (contains VALID output = true /\ contains INVALID output = false) \/
  contains WELL_FORMED output = true.
Proof.
  unfold is_valid.
  rewrite !orb_true_iff, andb_true_iff, negb_true_iff. tauto.
Qed.

(** Each banner contains the plain valid marker. *)
Lemma check_valid_has_valid (output : str) :
  contains CHECK_VALID output = true -> contains VALID output = true.
Proof. apply contains_trans. reflexivity. Qed.

Lemma invalid_has_valid (output : str) :
  contains INVALID output = true -> contains VALID output = true.
Proof. apply contains_trans. reflexivity. Qed.

Lemma well_formed_has_short (output : str) :
  contains WELL_FORMED output = true -> contains WELL_FORMED_SHORT output = true.
Proof. apply contains_trans. reflexivity. Qed.

(** Where the code and the specified rule part: the check-mark banner
    together with an invalid marker. *)
Lemma is_valid_vs_specified (output : str) :
  is_valid output =
  valid_as_specified output
  || contains CHECK_VALID output && contains INVALID output.
Proof.
  unfold is_valid, valid_as_specified.
  destruct (contains CHECK_VALID output) eqn:A.
  - rewrite (check_valid_has_valid _ A).
    destruct (contains INVALID output), (contains WELL_FORMED output); reflexivity.
  - destruct (contains VALID output), (contains INVALID output),
      (contains WELL_FORMED output); reflexivity.
Qed.

(** C1, as the code has it: [valid] is true exactly when the text contains
    the check-mark banner (U+2705, then " VALID JSON"), whatever else it
    contains, or
    contains "VALID JSON" and not "INVALID JSON", or contains the phrase
    "JSON is well-formed and structurally valid". *)
Theorem valid_flag_markers (isspace isdigit : char -> bool) (output : str) :
  valid (parse_output isspace isdigit output) = true <->
  occurs CHECK_VALID output \/
  (occurs VALID output /\ ~ occurs INVALID output) \/
  occurs WELL_FORMED output.
Proof.
  cbn [parse_output valid].
  rewrite is_valid_true_iff, !contains_iff, contains_false_iff. tauto.
Qed.

(** C1 as stated fails: this text holds a valid marker and an invalid
    marker and no well-formed phrase, and it is reported valid. *)
Lemma valid_flag_both_banners :
  contains CHECK_VALID both_banners = true /\
  contains INVALID both_banners = true /\
  contains WELL_FORMED both_banners = false /\
  valid_as_specified both_banners = false /\
  valid (parse_output ascii_isspace ascii_isdigit both_banners) = true.
Proof. vm_compute. repeat split. Qed.

(** C8 as stated fails: an error list that is not empty next to a true
    [valid]. *)
Lemma errors_with_valid_true :
  errors (parse_output ascii_isspace ascii_isdigit valid_with_errors) = [lit "foo"] /\
  valid (parse_output ascii_isspace ascii_isdigit valid_with_errors) = true.
Proof. vm_compute. split; reflexivity. Qed.

(** *** Message *)

Section Message.

Variable isspace : char -> bool.
Variable isdigit : char -> bool.

Lemma skipn_cons_nth (lines : list str) (k : nat) :
  k < length lines ->
  skipn k lines = nth k lines [] :: skipn (S k) lines.
Proof.
  revert k; induction lines as [|l lines IH]; intros k H; simpl in H; [lia|].
  destruct k; [reflexivity|]. cbn [skipn nth]. apply IH. lia.
Qed.

Lemma pending_0 (lines : list str) : pending lines 0 = enumerate lines.
Proof. unfold pending, enumerate. now rewrite Nat.sub_0_r. Qed.

Lemma pending_step (lines : list str) (k : nat) :
  k < length lines ->
  pending lines k = (k, nth k lines []) :: pending lines (S k).
Proof.
  intros H. unfold pending. rewrite (skipn_cons_nth lines H).
  replace (length lines - k) with (S (length lines - S k)) by lia.
  reflexivity.
Qed.

(** The loop stops at the first marker line whose next line is not
    blank, with that line stripped. *)
Lemma scan_stops (marker : str) (lines : list str) (i : nat) :
  i + 1 < length lines ->
  contains marker (nth i lines []) = true ->
  strip isspace (nth (i + 1) lines []) <> [] ->
  (forall j, j < i -> contains marker (nth j lines []) = true ->
             strip isspace (nth (j + 1) lines []) = []) ->
  forall d k msg, i = k + d ->
    scan isspace marker lines (pending lines k) msg =
    strip isspace (nth (i + 1) lines []).
Proof.
  intros Hlen Hmark Hnext Hbefore.
  induction d as [|d IH]; intros k msg Hk.
  - rewrite Nat.add_0_r in Hk. subst k.
    rewrite pending_step by lia. cbn [scan].
    rewrite Hmark. apply Nat.ltb_lt in Hlen. rewrite Hlen. cbn [andb].
    destruct (strip isspace (nth (i + 1) lines [])); [easy | reflexivity].
  - rewrite pending_step by lia. cbn [scan].
    destruct (contains marker (nth k lines []) && (k + 1 <? length lines)) eqn:C.
    + apply andb_true_iff in C as [C _].
      rewrite (Hbefore k) by (lia || exact C). cbn [truthy].
      apply IH. lia.
    + apply IH. lia.
Qed.

Lemma line_after_first (marker output msg : str) (i : nat) :
  let lines := split [nl] output in
  i + 1 < length lines ->
  contains marker (nth i lines []) = true ->
  strip isspace (nth (i + 1) lines []) <> [] ->
  (forall j, j < i -> contains marker (nth j lines []) = true ->
             strip isspace (nth (j + 1) lines []) = []) ->
  line_after isspace marker output msg = strip isspace (nth (i + 1) lines []).
Proof.
  intros lines H1 H2 H3 H4. unfold line_after. fold lines.
  rewrite <- pending_0. now apply scan_stops with (i := i) (d := i).
Qed.

(** A marker found in a line of the text is found in the text. *)
Lemma marker_in_line (marker output : str) (i : nat) :
  i < length (split [nl] output) ->
  contains marker (nth i (split [nl] output) []) = true ->
  contains marker output = true.
Proof.
  intros Hi H. apply (contains_trans _ _ _ H).
  apply contains_iff. apply split_occurs with (sep := [nl]).
  now apply nth_In.
Qed.

(** C3, as the code has it.  With [lines] the text cut at newlines:
    (1) without "INVALID JSON", "VALID JSON" and "JSON is well-formed" in
        the text the message is "Validation completed";
    (2) with "INVALID JSON" in line [i], the first such line whose next
        line is not blank, the message is that next line, stripped;
    (3) without "INVALID JSON" and with the phrase "JSON is well-formed
        and structurally valid", the message is that phrase;
    (4) without either and with "VALID JSON" in line [i], the first such
        line whose next line is not blank, the message is that next
        line, stripped. *)
Theorem message_of_output (output : str) :
  let lines := split [nl] output in
  let first_followed marker i :=
    i + 1 < length lines /\
    occurs marker (nth i lines []) /\
    strip isspace (nth (i + 1) lines []) <> [] /\
    (forall j, j < i -> occurs marker (nth j lines []) ->
               strip isspace (nth (j + 1) lines []) = []) in
  let msg := message (parse_output isspace isdigit output) in
  (~ occurs INVALID output -> ~ occurs VALID output ->
   ~ occurs WELL_FORMED_SHORT output -> msg = FALLBACK) /\
  (forall i, first_followed INVALID i ->
             msg = strip isspace (nth (i + 1) lines [])) /\
  (~ occurs INVALID output -> occurs WELL_FORMED output ->
   msg = WELL_FORMED) /\
  (forall i, ~ occurs INVALID output -> ~ occurs WELL_FORMED output ->
             first_followed VALID i ->
             msg = strip isspace (nth (i + 1) lines [])).
Proof.
  intros lines first_followed msg. subst msg first_followed lines.
  cbn [parse_output message]. unfold extract_message.
  repeat split.
  - intros H1 H2 H3. apply contains_false_iff in H1, H2, H3.
    now rewrite H1, H2, H3.
  - intros i (Hlen & Hmark & Hnext & Hbefore).
    apply contains_iff in Hmark.
    rewrite (marker_in_line INVALID output (i := i)) by (lia || exact Hmark).
    apply line_after_first; try assumption.
    intros j Hj Hc. apply Hbefore; [exact Hj | now apply contains_iff].
  - intros H1 H2. apply contains_false_iff in H1. apply contains_iff in H2.
    rewrite H1, H2, (well_formed_has_short _ H2). now rewrite orb_true_r.
  - intros i H1 H2 (Hlen & Hmark & Hnext & Hbefore).
    apply contains_false_iff in H1, H2. apply contains_iff in Hmark.
    rewrite H1, H2, (marker_in_line VALID output (i := i)) by (lia || exact Hmark).
    cbn [orb].
    apply line_after_first; try assumption.
    intros j Hj Hc. apply Hbefore; [exact Hj | now apply contains_iff].
Qed.

End Message.

(** On [invalid_report] the message is the line after the banner. *)
Lemma message_of_output_witness :
  message (parse_output ascii_isspace ascii_isdigit invalid_report)
  = lit "Unexpected token".
Proof.
  apply (proj1 (proj2 (message_of_output ascii_isspace ascii_isdigit invalid_report)) 0).
  repeat split.
  - vm_compute. lia.
  - apply contains_iff. vm_compute. reflexivity.
  - vm_compute. discriminate.
  - intros j Hj. lia.
Defined.

(** C3 as stated fails.  In the first text "INVALID JSON" is found and the
    line after it is blank, yet the message is the empty string, not the
    fallback.  In the second the message is the well-formed phrase: not
    the line after "VALID JSON", and not the fallback that the claim gives
    when no line follows the phrase. *)
Lemma message_not_line_after_marker :
  (contains INVALID invalid_then_blank = true /\
   nth 1 (split [nl] invalid_then_blank) [] = [] /\
   message (parse_output ascii_isspace ascii_isdigit invalid_then_blank) = [] /\
   FALLBACK <> []) /\
  (split [nl] phrase_last = [lit "VALID JSON"; lit "All good"; WELL_FORMED] /\
   message (parse_output ascii_isspace ascii_isdigit phrase_last) = WELL_FORMED /\
   WELL_FORMED <> lit "All good" /\
   WELL_FORMED <> FALLBACK).
Proof. vm_compute. repeat split; discriminate. Qed.

(** *** Errors *)

Section Errors.

Variable isspace : char -> bool.
Variable isdigit : char -> bool.

Lemma errors_need_header (output : str) :
  extract_errors isspace isdigit output <> [] ->
  contains ERRORS_FOUND output = true.
Proof.
  unfold extract_errors. destruct (contains ERRORS_FOUND output); easy.
Qed.

Lemma header_head : ERRORS_FOUND = 69%N :: lit "rrors Found:".
Proof. reflexivity. Qed.

Lemma separator_head : SEPARATOR = EQUALS :: lit "=========".
Proof. reflexivity. Qed.

Lemma separator_run : Forall (eq EQUALS) SEPARATOR.
Proof. repeat constructor. Qed.

(** The section between the first header and the separator after it. *)
Lemma error_section_between (pre body rest : str) :
  contains ERRORS_FOUND pre = false ->
  contains ERRORS_FOUND body = false ->
  contains SEPARATOR body = false ->
  last body 0%N <> EQUALS ->
  error_section (pre ++ ERRORS_FOUND ++ body ++ SEPARATOR ++ rest) = body.
Proof.
  intros Hpre Hbody Hsep Hlast. unfold error_section.
  assert (NE : ERRORS_FOUND <> []) by discriminate.
  assert (NS : SEPARATOR <> []) by discriminate.
  rewrite (@split_first ERRORS_FOUND NE pre).
  2: { rewrite header_head in *. apply clear_before_border_free; [|exact Hpre].
       vm_compute. intuition discriminate. }
  cbn [nth].
  rewrite (@split_nth0_app ERRORS_FOUND NE body).
  2: { rewrite separator_head. cbn [app].
       apply clear_before_next; [exact Hbody|].
       vm_compute. intuition discriminate. }
  rewrite (@split_nth0_app ERRORS_FOUND NE SEPARATOR).
  2: { rewrite header_head. apply clear_before_head.
       vm_compute. intuition discriminate. }
  rewrite (@split_first SEPARATOR NS body).
  - reflexivity.
  - apply clear_before_run with (d := EQUALS);
      [exact separator_run | exact Hsep | exact Hlast].
Qed.

(** A line passes the filter when its first character that is not white
    space is a digit. *)
Lemma numbered_iff (line : str) :
  numbered isspace isdigit line = true <->
  exists ws c tail, line = ws ++ c :: tail /\ forallb isspace ws = true /\
                    isspace c = false /\ isdigit c = true.
Proof.
  unfold numbered. split.
  - intros H. apply andb_true_iff in H as [Ht Hd].
    destruct (first_nonblank isspace line) as [B | (ws & c & tail & E & F & G)].
    + rewrite (@strip_blank isspace line B) in Ht. discriminate.
    + exists ws, c, tail. repeat split; try assumption.
      destruct (@strip_first isspace ws c tail F G) as [t St].
      rewrite E, St in Hd. exact Hd.
  - intros (ws & c & tail & -> & F & G & D).
    destruct (@strip_first isspace ws c tail F G) as [t ->]. simpl. exact D.
Qed.

(** The entry of a line "<number>. text" is "text". *)
Lemma entry_strips_number (number text : str) :
  isdigit FULL_STOP = false ->
  forallb isdigit number = true ->
  entry (number ++ DOT_SPACE ++ text) = text.
Proof.
  intros Hdot Hnum. unfold entry.
  assert (C : contains DOT_SPACE (number ++ DOT_SPACE ++ text) = true)
    by (apply contains_iff; now exists number, text).
  rewrite C, split_n_first; [reflexivity|].
  change DOT_SPACE with (FULL_STOP :: lit " ").
  apply clear_before_head. intros Hin.
  rewrite forallb_forall in Hnum. rewrite (Hnum _ Hin) in Hdot. discriminate.
Qed.

(** The error lines read the tables only at characters of the section. *)
Lemma error_lines_ext (isspace' isdigit' : char -> bool) (section : str) :
  (forall c, In c section -> isspace c = isspace' c /\ isdigit c = isdigit' c) ->
  error_lines isspace isdigit section = error_lines isspace' isdigit' section.
Proof.
  intros H. unfold error_lines.
  assert (L : forall line, In line (split [nl] section) ->
                           forall c, In c line -> In c section).
  { intros line Hl c Hc. apply split_occurs in Hl. eapply occurs_In; eassumption. }
  assert (S : forall line, In line (split [nl] section) ->
                           strip isspace line = strip isspace' line).
  { intros line Hl. apply strip_ext. intros c Hc. apply H. eapply L; eassumption. }
  rewrite (filter_ext_in (numbered isspace isdigit) (numbered isspace' isdigit')).
  - apply map_ext_in. intros line Hl. apply filter_In in Hl as [Hl _]. now apply S.
  - intros line Hl. unfold numbered. rewrite <- (S line Hl).
    destruct (strip isspace line) as [|c t] eqn:E; [reflexivity|]. simpl.
    apply H. apply (L line Hl). apply (@strip_incl isspace). rewrite E. now left.
Qed.

(** What is shown of the error list when the section ends at the
    separator, its lines start with a number, or the text is the one of
    the parser's unit test. *)
Lemma error_list_between :
  (forall output,
      errors (parse_output isspace isdigit output) <> [] ->
      occurs ERRORS_FOUND output) /\
  (forall pre body rest,
      ~ occurs ERRORS_FOUND pre -> ~ occurs ERRORS_FOUND body ->
      ~ occurs SEPARATOR body -> last body 0%N <> EQUALS ->
      errors (parse_output isspace isdigit
                (pre ++ ERRORS_FOUND ++ body ++ SEPARATOR ++ rest)) =
      List.map entry
        (List.map (strip isspace)
           (List.filter (numbered isspace isdigit) (split [nl] body)))) /\
  (forall line,
      numbered isspace isdigit line = true <->
      exists ws c tail, line = ws ++ c :: tail /\ forallb isspace ws = true /\
                        isspace c = false /\ isdigit c = true) /\
  (forall number text,
      isdigit FULL_STOP = false -> forallb isdigit number = true ->
      entry (number ++ lit ". " ++ text) = text) /\
  (forall pre rest,
      ascii_tables isspace isdigit -> ~ occurs ERRORS_FOUND pre ->
      errors (parse_output isspace isdigit (pre ++ errors_sample ++ rest)) =
      [lit "foo"; lit "bar"]).
Proof.
  assert (P2 : forall pre body rest,
      ~ occurs ERRORS_FOUND pre -> ~ occurs ERRORS_FOUND body ->
      ~ occurs SEPARATOR body -> last body 0%N <> EQUALS ->
      extract_errors isspace isdigit
        (pre ++ ERRORS_FOUND ++ body ++ SEPARATOR ++ rest) =
      List.map entry (error_lines isspace isdigit body)).
  { intros pre body rest H1 H2 H3 H4. unfold extract_errors.
    assert (C : contains ERRORS_FOUND
                  (pre ++ ERRORS_FOUND ++ body ++ SEPARATOR ++ rest) = true)
      by (apply contains_iff; now exists pre, (body ++ SEPARATOR ++ rest)).
    rewrite C, error_section_between; try reflexivity; try assumption;
      now apply contains_false_iff. }
  split; [|split; [|split; [|split]]].
  - intros output H. apply contains_iff. now apply errors_need_header.
  - exact P2.
  - exact numbered_iff.
  - intros number text. apply entry_strips_number.
  - intros pre rest T Hpre. cbn [parse_output errors].
    unfold errors_sample. rewrite <- !app_assoc.
    rewrite P2; try assumption.
    + rewrite (error_lines_ext ascii_isspace ascii_isdigit).
      * reflexivity.
      * intros c Hc. apply T.
        vm_compute in Hc. intuition (subst c; reflexivity).
    + apply contains_false_iff. reflexivity.
    + apply contains_false_iff. reflexivity.
    + vm_compute. discriminate.
Qed.

End Errors.

(** *** The character tables matter only at the characters of the text *)

Lemma nth_split_occurs (sep s : str) (k : nat) :
  occurs (nth k (split sep s) []) s.
Proof.
  destruct (nth_in_or_default k (split sep s) []) as [H | ->].
  - now apply split_occurs in H.
  - now exists [], s.
Qed.

Lemma scan_ext (f g : char -> bool) (marker : str) (lines : list str)
      (todo : list (nat * str)) (msg : str) :
  (forall k, strip f (nth k lines []) = strip g (nth k lines [])) ->
  scan f marker lines todo msg = scan g marker lines todo msg.
Proof.
  intros H. revert msg; induction todo as [|[i line] todo IH]; intros msg;
    cbn [scan]; [reflexivity|].
  rewrite H.
  destruct (contains marker line && (i + 1 <? length lines)); [|apply IH].
  destruct (truthy (strip g (nth (i + 1) lines []))); [reflexivity | apply IH].
Qed.

Lemma parse_output_ext (isspace isdigit isspace' isdigit' : char -> bool)
      (output : str) :
  (forall c, In c output -> isspace c = isspace' c /\ isdigit c = isdigit' c) ->
  parse_output isspace isdigit output = parse_output isspace' isdigit' output.
Proof.
  intros H. unfold parse_output. f_equal.
  - unfold extract_message, line_after.
    assert (K : forall k, strip isspace (nth k (split [nl] output) []) =
                          strip isspace' (nth k (split [nl] output) [])).
    { intros k. apply strip_ext. intros c Hc. apply H.
      eapply occurs_In; [apply nth_split_occurs | exact Hc]. }
    now rewrite !(@scan_ext isspace isspace' _ _ _ _ K).
  - unfold extract_errors.
    destruct (contains ERRORS_FOUND output); [|reflexivity]. f_equal.
    apply error_lines_ext. intros c Hc. apply H.
    eapply occurs_In; [|exact Hc]. unfold error_section.
    eapply occurs_trans; apply nth_split_occurs.
Qed.

(** On ASCII text any tables that agree with the ASCII ones give the
    result of the ASCII ones. *)
Lemma parse_output_ascii (isspace isdigit : char -> bool) (output : str) :
  ascii_tables isspace isdigit ->
  (forall c, In c output -> (c < 128)%N) ->
  parse_output isspace isdigit output =
  parse_output ascii_isspace ascii_isdigit output.
Proof.
  intros T A. apply parse_output_ext. intros c Hc. apply T, A, Hc.
Qed.

(** C2 as stated fails for a text that contains the unit-test text after an
    earlier header: the section is the one of the first header. *)
Lemma errors_after_earlier_header :
  contains errors_sample two_headers = true /\
  errors (parse_output ascii_isspace ascii_isdigit two_headers) = [] /\
  errors (parse_output ascii_isspace ascii_isdigit two_headers)
    <> [lit "foo"; lit "bar"].
Proof. vm_compute. repeat split. discriminate. Qed.

End ParserFacts.

(* ================================================================== *)
(** ** The validation endpoint: responses and the temporary file *)
(* ================================================================== *)

Module EndpointFacts.
Import PyStr Parser Endpoint.

Lemma str_eqb_eq (a b : str) : str_eqb a b = true <-> a = b.
Proof. unfold str_eqb. destruct (list_eq_dec N.eq_dec a b); split; easy. Qed.

Lemma str_eqb_refl (a : str) : str_eqb a a = true.
Proof. now apply str_eqb_eq. Qed.

Lemma remove_path_gone (p : path) (fs : list path) : ~ In p (remove_path p fs).
Proof.
  induction fs as [|q fs IH]; simpl; [easy|].
  destruct (str_eqb p q) eqn:E; [exact IH|].
  intros [-> | H]; [|now apply IH].
  rewrite str_eqb_refl in E. discriminate.
Qed.

Lemma exists_path_false (p : path) (fs : list path) :
  exists_path p fs = false -> ~ In p fs.
Proof.
  unfold exists_path. intros E H.
  assert (T : existsb (str_eqb p) fs = true)
    by (apply existsb_exists; exists p; split; [exact H | apply str_eqb_refl]).
  congruence.
Qed.

Lemma truth_false_iff (data : json) : truth data = false <-> falsy data.
Proof.
  unfold falsy. split.
  - destruct data as [|[]|n|[]|[]|[]|[]]; simpl; intros H; try discriminate;
      try (apply negb_false_iff, Z.eqb_eq in H; subst n); eauto 10.
  - intros [-> | [-> | [-> | [[sign ->] | [-> | [-> | ->]]]]]]; reflexivity.
Qed.

Section Environment.

Variable isspace : char -> bool.
Variable isdigit : char -> bool.
Variable type_error : operation -> json -> str.
Variable tempname : list path -> attempt path.
Variable write_fails : path -> str -> option str.
Variable java : path -> list path -> process * list path.

Let validate_json :=
  validate_json isspace isdigit type_error tempname write_fails java.
Let guarded := guarded isspace isdigit type_error tempname write_fails java.
Let run_validator := run_validator isspace isdigit java.

(** After [cleanup], the file does not exist, and nothing is raised. *)
Lemma cleanup_removes (p : path) (w : world) :
  exists w', cleanup p w = (Ret tt, w') /\ ~ In p (files w') /\
             created w' = created w /\ invoked w' = invoked w.
Proof.
  unfold cleanup, bind, os_path_exists, os_remove.
  destruct (exists_path p (files w)) eqn:E.
  - rewrite E. eexists. split; [reflexivity|]. cbn.
    split; [apply remove_path_gone | split; reflexivity].
  - exists w. split; [reflexivity|].
    split; [now apply exists_path_false | split; reflexivity].
Qed.

(** Whatever the validator does, the file is gone after lines 100-173,
    and one run has been attempted. *)
Lemma run_validator_cleans (p : path) (w : world) :
  ~ In p (files (snd (run_validator p w))) /\
  invoked (snd (run_validator p w)) = p :: invoked w.
Proof.
  unfold run_validator, Endpoint.run_validator, try_finally, bind,
    subprocess_run, ret.
  destruct (java p (files w)) as [proc fs].
  set (w1 := {| files := fs; created := created w; invoked := p :: invoked w |}).
  destruct (cleanup_removes p w1) as (w2 & C & G & _ & I).
  destruct proc as [d | seconds stdout]; [|destruct (Qle_bool seconds 10)];
    cbv beta iota; rewrite C; cbn [snd]; split; assumption.
Qed.

(** A request with a string under "json", a temporary file that could be
    created and written: the handler gets to lines 100-173. *)
Lemma guarded_reaches_run (req : request) (members : list (str * json))
      (s : str) (p : path) (w : world) :
  get_json req = Done (JObject members) ->
  lookup (lit "json") members = Some (JString s) ->
  tempname (files w) = Done p ->
  write_fails p s = None ->
  guarded req w = run_validator p (with_temp p w).
Proof.
  intros Hj Hl Ht Hw.
  unfold guarded, Endpoint.guarded, bind, of_attempt, ret.
  rewrite Hj. cbv beta iota.
  assert (T : truth (JObject members) = true)
    by (destruct members; [discriminate | reflexivity]).
  rewrite T. cbn [negb py_in py_getitem]. unfold ret. rewrite Hl. cbn [negb].
  unfold named_temporary_file. rewrite Ht. cbv beta iota.
  cbn [write_and_close]. rewrite Hw. reflexivity.
Qed.

(** C4: when the validator runs longer than the 10 second limit, the
    response is 500 with the message "Validation timeout", and the
    temporary file does not exist when the handler returns. *)
Theorem timeout_response (req : request) (members : list (str * json))
        (s : str) (p : path) (w : world)
        (seconds : Q) (stdout : str) (fs : list path) :
  method req = POST ->
  get_json req = Done (JObject members) ->
  lookup (lit "json") members = Some (JString s) ->
  tempname (files w) = Done p ->
  write_fails p s = None ->
  java p (p :: files w) = (Exits seconds stdout, fs) ->
  (10 < seconds)%Q ->
  exists v w',
    validate_json req w = (Ret (Json v, 500), w') /\
    valid v = false /\
    message v = lit "Validation timeout" /\
    ~ In p (files w') /\
    In p (created w').
Proof.
  intros Hm Hj Hl Ht Hw Hrun Hlate.
  assert (L : Qle_bool seconds 10 = false).
  { destruct (Qle_bool seconds 10) eqn:E; [|reflexivity].
    apply Qle_bool_iff in E. now apply Qlt_not_le in Hlate. }
  unfold validate_json, Endpoint.validate_json. rewrite Hm.
  unfold try_except. fold guarded.
  rewrite (@guarded_reaches_run req members s p w Hj Hl Ht Hw).
  unfold run_validator, Endpoint.run_validator, try_finally, bind,
    subprocess_run, ret.
  cbn [with_temp files created invoked]. rewrite Hrun, L.
  set (w1 := {| files := fs; created := p :: created w;
                invoked := p :: invoked w |}).
  destruct (cleanup_removes p w1) as (w2 & C & G & K & _).
  rewrite C. cbn [handler]. unfold ret.
  eexists. exists w2. split; [reflexivity|]. cbn.
  repeat split; try reflexivity; try assumption.
  rewrite K. now left.
Qed.

(** C5, as the code has it: when lines 84-173 raise an exception that is
    not the timeout, with text [descr], the response is 500 with
    [valid] false, the fixed message "Server error" and the one-element
    error list [[descr]]. *)
Theorem failure_response (req : request) (w w' : world) (descr : str) :
  method req = POST ->
  guarded req w = (Raise (Failure descr), w') ->
  validate_json req w =
    (Ret (Json {| valid := false;
                  message := lit "Server error";
                  errors := [descr] |}, 500), w').
Proof.
  intros Hm Hg. unfold validate_json, Endpoint.validate_json. rewrite Hm.
  unfold try_except. fold guarded. rewrite Hg. reflexivity.
Qed.

(** The launch failure is one such exception. *)
Lemma launch_failure_raises (req : request) (members : list (str * json))
      (s : str) (p : path) (w : world) (descr : str) (fs : list path) :
  get_json req = Done (JObject members) ->
  lookup (lit "json") members = Some (JString s) ->
  tempname (files w) = Done p ->
  write_fails p s = None ->
  java p (p :: files w) = (Broken descr, fs) ->
  exists w', guarded req w = (Raise (Failure descr), w') /\ ~ In p (files w').
Proof.
  intros Hj Hl Ht Hw Hrun.
  rewrite (@guarded_reaches_run req members s p w Hj Hl Ht Hw).
  unfold run_validator, Endpoint.run_validator, try_finally, bind,
    subprocess_run, ret.
  cbn [with_temp files created invoked]. rewrite Hrun.
  set (w1 := {| files := fs; created := p :: created w;
                invoked := p :: invoked w |}).
  destruct (cleanup_removes p w1) as (w2 & C & G & _ & _).
  rewrite C. now exists w2.
Qed.

(** A POST whose body is an object without the key "json" gets 400 with
    the one fixed error entry; the world is left as it was. *)
Lemma object_without_key_rejected (req : request)
        (members : list (str * json)) (w : world) :
  method req = POST ->
  get_json req = Done (JObject members) ->
  lookup (lit "json") members = None ->
  exists v w',
    validate_json req w = (Ret (Json v, 400), w') /\
    valid v = false /\
    errors v = [lit "Request must include " ++ QUOTE :: lit "json"
                  ++ QUOTE :: lit " field"] /\
    length (errors v) = 1 /\
    invoked w' = invoked w /\
    w' = w.
Proof.
  intros Hm Hj Hl.
  unfold validate_json, Endpoint.validate_json. rewrite Hm.
  unfold try_except, Endpoint.guarded, bind, of_attempt, ret.
  rewrite Hj. cbv beta iota.
  destruct (truth (JObject members)); cbn [negb py_in]; unfold ret;
    rewrite ?Hl; cbn [negb];
    (eexists; exists w; split; [reflexivity | repeat split]).
Qed.

(** C10: a POST whose body is null, false, 0, 0.0, "", [] or {} gets the
    response of the missing field; the test ['json' in data] is not
    evaluated, so nothing is raised and the world is left as it was. *)
Theorem falsy_body_rejected (req : request) (data : json) (w : world) :
  method req = POST ->
  get_json req = Done data ->
  falsy data ->
  validate_json req w = (Ret MISSING_FIELD, w) /\
  forall members,
    lookup (lit "json") members = None ->
    validate_json (mkRequest POST (Done (JObject members))) w =
    validate_json req w.
Proof.
  intros Hm Hj Hf. apply truth_false_iff in Hf.
  assert (R : validate_json req w = (Ret MISSING_FIELD, w)).
  { unfold validate_json, Endpoint.validate_json. rewrite Hm.
    unfold try_except, Endpoint.guarded, bind, of_attempt, ret.
    rewrite Hj. cbv beta iota. rewrite Hf. reflexivity. }
  split; [exact R|]. intros members Hl. rewrite R.
  unfold validate_json, Endpoint.validate_json. cbn [method].
  unfold try_except, Endpoint.guarded, bind, of_attempt, ret.
  cbn [get_json]. cbv beta iota.
  destruct (truth (JObject members)); cbn [negb py_in]; unfold ret;
    rewrite ?Hl; reflexivity.
Qed.

(** C6 fails on the code when the write raises: lines 96-98 are outside
    the [try ... finally] of lines 100-173, so the file created with
    [delete=False] is left behind. *)
Theorem temp_file_left_behind (req : request) (members : list (str * json))
        (json_input : json) (p : path) (w : world) (descr : str) :
  method req = POST ->
  get_json req = Done (JObject members) ->
  lookup (lit "json") members = Some json_input ->
  tempname (files w) = Done p ->
  write_raises type_error write_fails p json_input descr ->
  exists w',
    validate_json req w = (Ret (SERVER_ERROR descr), w') /\
    In p (created w') /\
    In p (files w') /\
    invoked w' = invoked w.
Proof.
  intros Hm Hj Hl Ht Hw.
  unfold validate_json, Endpoint.validate_json. rewrite Hm.
  unfold try_except, Endpoint.guarded, bind, of_attempt, ret.
  rewrite Hj. cbv beta iota.
  assert (T : truth (JObject members) = true)
    by (destruct members; [discriminate | reflexivity]).
  rewrite T. cbn [negb py_in py_getitem]. unfold ret. rewrite Hl. cbn [negb].
  unfold named_temporary_file. rewrite Ht. cbv beta iota.
  exists (with_temp p w).
  assert (W : write_and_close type_error write_fails p json_input (with_temp p w)
              = (Raise (Failure descr), with_temp p w)).
  { unfold write_raises in Hw. unfold write_and_close.
    destruct json_input; try (rewrite Hw; reflexivity). }
  unfold with_temp in *. rewrite W. cbn.
  repeat split; try reflexivity; now left.
Qed.

(** The other half of C6: once the file is written, every way out of the
    handler - a verdict, the timeout, a failure - finds it removed. *)
Lemma temp_file_removed_after_write (req : request)
      (members : list (str * json)) (s : str) (p : path) (w : world) :
  method req = POST ->
  get_json req = Done (JObject members) ->
  lookup (lit "json") members = Some (JString s) ->
  tempname (files w) = Done p ->
  write_fails p s = None ->
  exists r w',
    validate_json req w = (Ret r, w') /\
    ~ In p (files w') /\
    invoked w' = p :: invoked w.
Proof.
  intros Hm Hj Hl Ht Hw.
  unfold validate_json, Endpoint.validate_json. rewrite Hm.
  unfold try_except. fold guarded.
  rewrite (@guarded_reaches_run req members s p w Hj Hl Ht Hw).
  destruct (run_validator_cleans p (with_temp p w)) as [G I].
  destruct (run_validator p (with_temp p w)) as [[r | [|d]] w1];
    cbn [handler snd] in *; unfold ret; eauto.
Qed.

End Environment.


Lemma timeout_response_witness :
  exists v w',
    sample_validate (Exits 11 []) (post sample_body) empty_world
      = (Ret (Json v, 500), w') /\
    valid v = false /\
    message v = lit "Validation timeout" /\
    ~ In sample_temp (files w') /\
    In sample_temp (created w').
Proof.
  apply (@timeout_response ascii_isspace ascii_isdigit sample_type_error
           (fun _ => Done sample_temp) (fun _ _ => None)
           (fun _ fs => (Exits 11 [], fs))
           (post sample_body) [(lit "json", JString (lit "[1, 2, 3,]"))]
           (lit "[1, 2, 3,]") sample_temp empty_world 11%Q [] [sample_temp]);
    reflexivity.
Defined.

Lemma failure_response_witness :
  sample_validate (Broken java_missing) (post sample_body) empty_world
  = (Ret (Json {| valid := false;
                  message := lit "Server error";
                  errors := [java_missing] |}, 500),
     mkWorld [] [sample_temp] [sample_temp]).
Proof.
  apply (@failure_response ascii_isspace ascii_isdigit sample_type_error
           (fun _ => Done sample_temp) (fun _ _ => None)
           (fun _ fs => (Broken java_missing, fs))
           (post sample_body) empty_world); reflexivity.
Defined.

(** C5 as stated fails: after a launch failure the message is the fixed
    text and does not contain the failure's description, which is the
    entry of the error list. *)
Lemma failure_message_is_fixed :
  exists v w',
    sample_validate (Broken java_missing) (post sample_body) empty_world
      = (Ret (Json v, 500), w') /\
    message v = lit "Server error" /\
    message v <> java_missing /\
    contains java_missing (message v) = false /\
    errors v = [java_missing].
Proof.
  eexists. eexists. split; [reflexivity|].
  vm_compute. repeat split. discriminate.
Qed.

Lemma falsy_body_rejected_witness :
  sample_validate (Exits 1 []) (post (JInt 0)) empty_world
    = (Ret MISSING_FIELD, empty_world) /\
  forall members,
    lookup (lit "json") members = None ->
    sample_validate (Exits 1 []) (mkRequest POST (Done (JObject members)))
      empty_world
    = sample_validate (Exits 1 []) (post (JInt 0)) empty_world.
Proof.
  apply (@falsy_body_rejected ascii_isspace ascii_isdigit sample_type_error
           (fun _ => Done sample_temp) (fun _ _ => None)
           (fun _ fs => (Exits 1 [], fs))
           (post (JInt 0)) (JInt 0) empty_world); try reflexivity.
  unfold falsy. right. right. left. reflexivity.
Defined.

(** The failing request of C6: ["json"] holds a number, so [write] raises
    after the file was created. *)
Lemma temp_file_left_behind_witness :
  exists w',
    sample_validate (Exits 1 []) (post (JObject [(lit "json", JInt 5)]))
      empty_world
    = (Ret (SERVER_ERROR (lit "write() argument must be str")), w') /\
    In sample_temp (created w') /\
    In sample_temp (files w') /\
    invoked w' = invoked empty_world.
Proof.
  apply (@temp_file_left_behind ascii_isspace ascii_isdigit sample_type_error
           (fun _ => Done sample_temp) (fun _ _ => None)
           (fun _ fs => (Exits 1 [], fs))
           (post (JObject [(lit "json", JInt 5)]))
           [(lit "json", JInt 5)] (JInt 5) sample_temp empty_world
           (lit "write() argument must be str")); reflexivity.
Defined.

End EndpointFacts.

(* ================================================================== *)
(** ** The visitor counter: interleaved increments *)
(* ================================================================== *)

Module CounterFacts.
Import Counter.

Lemma nth_error_middle (done : list pc) (x : pc) (rest : list pc) :
  nth_error (done ++ x :: rest) (length done) = Some x.
Proof. induction done; simpl; auto. Qed.

Lemma set_nth_middle (done : list pc) (x y : pc) (rest : list pc) :
  set_nth (length done) y (done ++ x :: rest) = done ++ y :: rest.
Proof. induction done; simpl; [reflexivity | now f_equal]. Qed.

(** One handler running alone from [Start] to [Finished] adds one. *)
Lemma handler_alone (f : count_file) (done rest : list pc) :
  let k := length done in
  run [k; k; k; k] (mkSystem f false (done ++ Start :: rest)) =
  Some (mkSystem (Some (get_visitor_count_from_file f + 1)%Z) false
          (done ++ Finished (get_visitor_count_from_file f + 1) :: rest)).
Proof.
  cbn [run]. unfold step.
  cbn [handlers locked stored]. rewrite nth_error_middle, set_nth_middle.
  cbn [handlers locked stored]. rewrite nth_error_middle, set_nth_middle.
  cbn [handlers locked stored]. rewrite nth_error_middle, set_nth_middle.
  cbn [handlers locked stored]. rewrite nth_error_middle, set_nth_middle.
  reflexivity.
Qed.

(** Handlers that do not overlap lose nothing: [n] POSTs one after the
    other leave the count [n] higher. *)
Lemma serial_increments (n : nat) (f : count_file) (done : list pc) :
  exists f' done',
    run (serial (length done) n) (mkSystem f false (done ++ repeat Start n)) =
    Some (mkSystem f' false done') /\
    get_visitor_count_from_file f' = (get_visitor_count_from_file f + Z.of_nat n)%Z /\
    forallb finished done' = forallb finished done.
Proof.
  revert f done; induction n as [|n IH]; intros f done.
  - exists f, (done ++ []). cbn [serial run repeat].
    rewrite Z.add_0_r, app_nil_r. repeat split.
  - cbn [serial repeat].
    assert (R : forall a b s, run (a ++ b) s =
                  match run a s with Some s' => run b s' | None => None end).
    { induction a as [|i a IHa]; intros b s; simpl; [reflexivity|].
      destruct (step i s); [apply IHa | reflexivity]. }
    rewrite R, handler_alone.
    replace (done ++ Finished (get_visitor_count_from_file f + 1) :: repeat Start n)
      with ((done ++ [Finished (get_visitor_count_from_file f + 1)]) ++ repeat Start n)
      by (now rewrite <- app_assoc).
    replace (S (length done)) with (length (done ++ [Finished (get_visitor_count_from_file f + 1)]))
      by (rewrite length_app; simpl; lia).
    destruct (IH (Some (get_visitor_count_from_file f + 1)%Z) (done ++ [Finished (get_visitor_count_from_file f + 1)]))
      as (f' & done' & E & C & F).
    exists f', done'. split; [exact E|]. split.
    + rewrite C. cbn [get_visitor_count_from_file]. lia.
    + rewrite F, forallb_app. simpl. now rewrite !andb_true_r.
Qed.

(** C9 fails on the code: the lock is released between the read (line 55)
    and the write (line 57).  Two POSTs that both read before either
    writes both store [c + 1]: one increment is lost. *)
Theorem lost_update (c : Z) :
  exists final,
    run [0; 0; 1; 1; 0; 0; 1; 1] (initial (Some c) 2) = Some final /\
    forallb finished (handlers final) = true /\
    locked final = false /\
    stored final = Some (c + 1)%Z /\
    stored final <> Some (c + 2)%Z.
Proof.
  eexists. split; [reflexivity|]. cbn.
  repeat split. intros [= H]. lia.
Qed.

End CounterFacts.

(* ================================================================== *)
(** ** The visitor counter: invariants of every interleaving *)
(* ================================================================== *)

Unset Implicit Arguments.

Module CounterInvFacts.
Import Counter CounterInv.

Lemma set_nth_length (i : nat) (x : pc) (l : list pc) :
  length (set_nth i x l) = length l.
Proof.
  revert i; induction l as [|y l IH]; intros [|i]; simpl; auto.
Qed.

(** Replacing handler [i] changes a count by the difference between the
    old and the new handler. *)
Lemma count_if_set_nth (P : pc -> bool) (l : list pc) (i : nat) (x y : pc) :
  nth_error l i = Some x ->
  count_if P (set_nth i y l) + (if P x then 1 else 0) =
  count_if P l + (if P y then 1 else 0).
Proof.
  unfold count_if. revert i; induction l as [|z l IH]; intros [|i] H;
    simpl in H; try discriminate.
  - injection H as ->. simpl. destruct (P x), (P y); simpl; lia.
  - simpl. specialize (IH i H). destruct (P z); simpl; lia.
Qed.

Lemma steps_set_nth (l : list pc) (i : nat) (x y : pc) :
  nth_error l i = Some x ->
  list_sum (List.map progress (set_nth i y l)) + progress x =
  list_sum (List.map progress l) + progress y.
Proof.
  revert i; induction l as [|z l IH]; intros [|i] H; simpl in H;
    try discriminate.
  - injection H as ->. simpl. lia.
  - simpl. specialize (IH i H). lia.
Qed.

Lemma Forall_set_nth (P : pc -> Prop) (l : list pc) (i : nat) (y : pc) :
  Forall P l -> P y -> Forall P (set_nth i y l).
Proof.
  intros H Hy. revert i; induction H as [|z l Hz Hl IH]; intros [|i]; simpl;
    constructor; auto.
Qed.

Lemma within_more (c : Z) (k k' : nat) (p : pc) :
  k <= k' -> within c k p -> within c k' p.
Proof. destruct p; simpl; lia. Qed.

(** Every step of every handler says what it did. *)
Lemma step_cases (i : nat) (s s' : system) :
  step i s = Some s' ->
  (nth_error (handlers s) i = Some Start /\ locked s = false /\
   s' = mkSystem (stored s) true (set_nth i Reading (handlers s))) \/
  (nth_error (handlers s) i = Some Reading /\
   s' = mkSystem (stored s) false
          (set_nth i (Counted (get_visitor_count_from_file (stored s)))
             (handlers s))) \/
  (exists c, nth_error (handlers s) i = Some (Counted c) /\ locked s = false /\
   s' = mkSystem (stored s) true (set_nth i (Saving (c + 1)) (handlers s))) \/
  (exists n, nth_error (handlers s) i = Some (Saving n) /\
   s' = mkSystem (save_visitor_count_to_file n) false
          (set_nth i (Finished n) (handlers s))).
Proof.
  unfold step. destruct (nth_error (handlers s) i) as [[| |c|n|n]|] eqn:E;
    try discriminate.
  - destruct (locked s) eqn:L; [discriminate|]. intros [= <-]. auto.
  - intros [= <-]. auto.
  - destruct (locked s) eqn:L; [discriminate|]. intros [= <-].
    right. right. left. exists c. auto.
  - intros [= <-]. right. right. right. exists n. auto.
Qed.

(** *** Mutual exclusion *)

Lemma step_lock_ok (i : nat) (s s' : system) :
  lock_ok s -> step i s = Some s' -> lock_ok s'.
Proof.
  unfold lock_ok. intros H E.
  destruct (step_cases i s _ E)
    as [(N & L & ->) | [(N & ->) | [(c & N & L & ->) | (n & N & ->)]]];
    cbn [handlers locked];
    pose proof (count_if_set_nth holding (handlers s) i) as C;
    [ specialize (C _ Reading N) | specialize (C _ (Counted (get_visitor_count_from_file (stored s))) N)
    | specialize (C _ (Saving (c + 1)) N) | specialize (C _ (Finished n) N) ];
    cbn [holding] in C; destruct (locked s); try discriminate; lia.
Qed.

Lemma initial_lock_ok (f : count_file) (n : nat) : lock_ok (initial f n).
Proof.
  unfold lock_ok, initial, count_if. cbn [handlers locked].
  induction n; simpl; auto.
Qed.

(** X2: under every schedule the lock is held exactly when one handler is
    inside a [with COUNT_LOCK] block; two handlers never are. *)
Theorem mutual_exclusion (schedule : list nat) (f : count_file) (n : nat)
        (s : system) :
  run schedule (initial f n) = Some s ->
  count_if holding (handlers s) <= 1 /\
  (locked s = true <-> count_if holding (handlers s) = 1).
Proof.
  intros R.
  assert (K : lock_ok s).
  { pose proof (initial_lock_ok f n) as I. revert R I.
    generalize (initial f n). induction schedule as [|i rest IH]; intros s0 R I.
    - now injection R as <-.
    - cbn [run] in R. destruct (step i s0) as [s1|] eqn:E; [|discriminate].
      exact (IH s1 R (step_lock_ok i s0 s1 I E)). }
  unfold lock_ok in K. destruct (locked s); rewrite K; split; try lia;
    split; intros; (reflexivity || discriminate).
Qed.

Lemma mutual_exclusion_witness :
  count_if holding (handlers (mkSystem None true [Reading; Start])) <= 1 /\
  (locked (mkSystem None true [Reading; Start]) = true <->
   count_if holding (handlers (mkSystem None true [Reading; Start])) = 1).
Proof.
  apply (mutual_exclusion [0] None 2). reflexivity.
Defined.

(** *** Bounds on the count *)

Lemma handler_within (P : pc -> Prop) (l : list pc) (i : nat) (x : pc) :
  Forall P l -> nth_error l i = Some x -> P x.
Proof.
  intros H N. rewrite Forall_forall in H. apply H.
  exact (nth_error_In l i N).
Qed.

Lemma step_bounded (c : Z) (i : nat) (s s' : system) :
  bounded c s -> step i s = Some s' -> bounded c s'.
Proof.
  unfold bounded. intros (B & L & F) E.
  destruct (step_cases i s _ E)
    as [(N & _ & ->) | [(N & ->) | [(x & N & _ & ->) | (n & N & ->)]]];
    cbn [handlers stored].
  - pose proof (count_if_set_nth finished (handlers s) i _ Reading N) as C.
    cbn [finished] in C. replace (count_if finished (set_nth i Reading (handlers s)))
      with (count_if finished (handlers s)) by lia.
    repeat split; try tauto. now apply Forall_set_nth.
  - set (y := Counted (get_visitor_count_from_file (stored s))).
    pose proof (count_if_set_nth finished (handlers s) i _ y N) as C.
    cbn [finished y] in C. replace (count_if finished (set_nth i y (handlers s)))
      with (count_if finished (handlers s)) by lia.
    repeat split; try tauto. apply Forall_set_nth; [exact F|]. exact B.
  - pose proof (count_if_set_nth finished (handlers s) i _ (Saving (x + 1)) N) as C.
    cbn [finished] in C.
    replace (count_if finished (set_nth i (Saving (x + 1)) (handlers s)))
      with (count_if finished (handlers s)) by lia.
    repeat split; try tauto. apply Forall_set_nth; [exact F|].
    pose proof (handler_within _ _ _ _ F N) as W. cbn [within] in *. lia.
  - pose proof (count_if_set_nth finished (handlers s) i _ (Finished n) N) as C.
    cbn [finished] in C.
    replace (count_if finished (set_nth i (Finished n) (handlers s)))
      with (S (count_if finished (handlers s))) by lia.
    pose proof (handler_within _ _ _ _ F N) as W. cbn [within] in W.
    cbn [get_visitor_count_from_file save_visitor_count_to_file].
    repeat split; try lia.
    apply Forall_set_nth.
    + apply (Forall_impl (within c (S (count_if finished (handlers s))))
               (fun p => within_more c _ _ p (Nat.le_succ_diag_r _)) F).
    + cbn [within]. lia.
Qed.

Lemma initial_bounded (f : count_file) (n : nat) :
  bounded (get_visitor_count_from_file f) (initial f n).
Proof.
  unfold bounded, initial. cbn [handlers stored].
  assert (Z : count_if finished (repeat Start n) = 0)
    by (unfold count_if; induction n; simpl; auto).
  rewrite Z. repeat split; try lia.
  apply Forall_forall. intros p Hp. apply repeat_spec in Hp. now subst p.
Qed.

Lemma run_bounded (c : Z) (schedule : list nat) (s0 s : system) :
  bounded c s0 -> run schedule s0 = Some s -> bounded c s.
Proof.
  revert s0; induction schedule as [|i rest IH]; intros s0 B R.
  - now injection R as <-.
  - cbn [run] in R. destruct (step i s0) as [s1|] eqn:E; [|discriminate].
    exact (IH s1 (step_bounded c i s0 s1 B E) R).
Qed.

Lemma run_length (schedule : list nat) (s0 s : system) :
  run schedule s0 = Some s -> length (handlers s) = length (handlers s0).
Proof.
  revert s0; induction schedule as [|i rest IH]; intros s0 R.
  - now injection R as <-.
  - cbn [run] in R. destruct (step i s0) as [s1|] eqn:E; [|discriminate].
    rewrite (IH s1 R).
    destruct (step_cases i s0 _ E)
      as [(_ & _ & ->) | [(_ & ->) | [(x & _ & _ & ->) | (n & _ & ->)]]];
      cbn [handlers]; apply set_nth_length.
Qed.

Lemma count_if_le (P : pc -> bool) (l : list pc) : count_if P l <= length l.
Proof. unfold count_if. apply filter_length_le. Qed.

Lemma count_if_all (P : pc -> bool) (l : list pc) :
  forallb P l = true -> count_if P l = length l.
Proof.
  unfold count_if. induction l as [|x l IH]; simpl; [reflexivity|].
  intros H. apply andb_true_iff in H as [-> H]. simpl. now rewrite IH.
Qed.

(** X3: under every schedule, at every moment, the stored count is at
    least the count at the start and at most that count plus the number of
    POST handlers that have finished. *)
Theorem stored_count_bounds (schedule : list nat) (f : count_file) (n : nat)
        (s : system) :
  run schedule (initial f n) = Some s ->
  let c := get_visitor_count_from_file f in
  (c <= get_visitor_count_from_file (stored s)
     <= c + Z.of_nat (count_if finished (handlers s)))%Z /\
  count_if finished (handlers s) <= n.
Proof.
  intros R c.
  destruct (run_bounded c schedule _ s (initial_bounded f n) R) as (B & _ & _).
  split; [exact B|].
  pose proof (count_if_le finished (handlers s)) as L.
  rewrite (run_length schedule _ s R) in L.
  unfold initial in L. cbn [handlers] in L. now rewrite repeat_length in L.
Qed.

Lemma stored_count_bounds_witness :
  let s := mkSystem (Some 8%Z) false [Finished 8; Counted 7] in
  (7 <= get_visitor_count_from_file (stored s)
     <= 7 + Z.of_nat (count_if finished (handlers s)))%Z /\
  count_if finished (handlers s) <= 2.
Proof.
  apply (stored_count_bounds [0; 0; 1; 1; 0; 0] (Some 7%Z) 2). reflexivity.
Defined.

(** X4: when all of [n >= 1] concurrent POSTs have finished, under any
    schedule, the stored count lies between the starting count plus 1 and
    the starting count plus [n], and so does the count every handler
    returned. *)
Theorem final_count_range (schedule : list nat) (f : count_file) (n : nat)
        (s : system) :
  run schedule (initial f n) = Some s ->
  forallb finished (handlers s) = true ->
  1 <= n ->
  let c := get_visitor_count_from_file f in
  (c + 1 <= get_visitor_count_from_file (stored s) <= c + Z.of_nat n)%Z /\
  forall p, In p (handlers s) ->
            exists m, p = Finished m /\ (c + 1 <= m <= c + Z.of_nat n)%Z.
Proof.
  intros R A N c.
  destruct (run_bounded c schedule _ s (initial_bounded f n) R) as (B & L & F).
  assert (K : count_if finished (handlers s) = n).
  { rewrite (count_if_all _ _ A), (run_length schedule _ s R).
    unfold initial. cbn [handlers]. apply repeat_length. }
  rewrite K in *. split; [specialize (L N); lia|].
  intros p Hp. rewrite Forall_forall in F. specialize (F p Hp).
  rewrite forallb_forall in A. specialize (A p Hp).
  destruct p; try discriminate. eexists. split; [reflexivity | exact F].
Qed.

Lemma final_count_range_witness :
  let s := mkSystem (Some 8%Z) false [Finished 8; Finished 8] in
  (7 + 1 <= get_visitor_count_from_file (stored s) <= 7 + Z.of_nat 2)%Z /\
  forall p, In p (handlers s) ->
            exists m, p = Finished m /\ (7 + 1 <= m <= 7 + Z.of_nat 2)%Z.
Proof.
  apply (final_count_range [0; 0; 1; 1; 0; 0; 1; 1] (Some 7%Z) 2);
    [reflexivity | reflexivity | lia].
Defined.

(** *** Progress and length of runs *)

Lemma run_lock_ok (schedule : list nat) (s0 s : system) :
  lock_ok s0 -> run schedule s0 = Some s -> lock_ok s.
Proof.
  revert s0; induction schedule as [|i rest IH]; intros s0 I R.
  - now injection R as <-.
  - cbn [run] in R. destruct (step i s0) as [s1|] eqn:E; [|discriminate].
    exact (IH s1 (step_lock_ok i s0 s1 I E) R).
Qed.

Lemma count_if_pos (P : pc -> bool) (l : list pc) :
  0 < count_if P l -> exists x, In x l /\ P x = true.
Proof.
  unfold count_if. destruct (List.filter P l) as [|x t] eqn:E; simpl; [lia|].
  intros _. exists x. apply filter_In. rewrite E. now left.
Qed.

Lemma count_if_zero (P : pc -> bool) (l : list pc) (x : pc) :
  count_if P l = 0 -> In x l -> P x = false.
Proof.
  unfold count_if. intros Z Hx. destruct (P x) eqn:E; [|reflexivity].
  assert (I : In x (List.filter P l)) by (apply filter_In; auto).
  destruct (List.filter P l); [destruct I | discriminate].
Qed.

Lemma forallb_false (P : pc -> bool) (l : list pc) :
  forallb P l = false -> exists x, In x l /\ P x = false.
Proof.
  induction l as [|x l IH]; simpl; [discriminate|].
  destruct (P x) eqn:E; simpl.
  - intros H. destruct (IH H) as (y & Hy & Py). exists y. auto.
  - intros _. exists x. auto.
Qed.

(** X5: no deadlock.  Under every schedule, as long as some POST handler
    has not finished, some handler can take a step. *)
Theorem no_deadlock (schedule : list nat) (f : count_file) (n : nat)
        (s : system) :
  run schedule (initial f n) = Some s ->
  forallb finished (handlers s) = false ->
  exists i s', step i s = Some s'.
Proof.
  intros R U.
  pose proof (run_lock_ok schedule _ s (initial_lock_ok f n) R) as K.
  unfold lock_ok in K. destruct (locked s) eqn:L.
  - destruct (count_if_pos holding (handlers s)) as (p & Hp & Hh); [lia|].
    destruct (In_nth_error _ _ Hp) as [i Hi].
    exists i. unfold step. rewrite Hi.
    destruct p; try discriminate; eauto.
  - destruct (forallb_false _ _ U) as (p & Hp & Hf).
    pose proof (count_if_zero holding _ p K Hp) as Hh.
    destruct (In_nth_error _ _ Hp) as [i Hi].
    exists i. unfold step. rewrite Hi, L.
    destruct p; try discriminate; eauto.
Qed.

Lemma no_deadlock_witness :
  exists i s', step i (mkSystem None true [Reading; Start]) = Some s'.
Proof.
  apply (no_deadlock [0] None 2); reflexivity.
Defined.

Lemma run_steps (schedule : list nat) (s0 s : system) :
  run schedule s0 = Some s ->
  steps_taken s = steps_taken s0 + length schedule.
Proof.
  revert s0; induction schedule as [|i rest IH]; intros s0 R.
  - injection R as <-. simpl. lia.
  - cbn [run] in R. destruct (step i s0) as [s1|] eqn:E; [|discriminate].
    rewrite (IH s1 R). cbn [length]. unfold steps_taken.
    destruct (step_cases i s0 _ E)
      as [(N & _ & ->) | [(N & ->) | [(x & N & _ & ->) | (n & N & ->)]]];
      cbn [handlers];
      [ pose proof (steps_set_nth (handlers s0) i _ Reading N) as C
      | pose proof (steps_set_nth (handlers s0) i _
                      (Counted (get_visitor_count_from_file (stored s0))) N) as C
      | pose proof (steps_set_nth (handlers s0) i _ (Saving (x + 1)) N) as C
      | pose proof (steps_set_nth (handlers s0) i _ (Finished n) N) as C ];
      cbn [progress] in C; lia.
Qed.

Lemma steps_le (l : list pc) : list_sum (List.map progress l) <= 4 * length l.
Proof.
  induction l as [|p l IH]; simpl; [lia|]. destruct p; simpl; lia.
Qed.

Lemma steps_all (l : list pc) :
  forallb finished l = true -> list_sum (List.map progress l) = 4 * length l.
Proof.
  induction l as [|p l IH]; simpl; [reflexivity|].
  intros H. apply andb_true_iff in H as [Hp H].
  destruct p; try discriminate. simpl. rewrite (IH H). lia.
Qed.

Lemma steps_initial (f : count_file) (n : nat) : steps_taken (initial f n) = 0.
Proof. unfold steps_taken, initial. cbn [handlers]. induction n; simpl; auto. Qed.

(** X6: a schedule of [n] POST handlers that runs has at most [4 * n]
    steps, and exactly [4 * n] when all handlers have finished: no handler
    ever repeats a step. *)
Theorem schedule_length (schedule : list nat) (f : count_file) (n : nat)
        (s : system) :
  run schedule (initial f n) = Some s ->
  length schedule <= 4 * n /\
  (forallb finished (handlers s) = true -> length schedule = 4 * n).
Proof.
  intros R. pose proof (run_steps schedule _ s R) as T.
  pose proof (run_length schedule _ s R) as L.
  unfold initial in L. cbn [handlers] in L. rewrite repeat_length in L.
  rewrite steps_initial in T. unfold steps_taken in T. split.
  - pose proof (steps_le (handlers s)). lia.
  - intros A. rewrite (steps_all _ A) in T. lia.
Qed.

Lemma schedule_length_witness :
  length [0; 0; 1; 1; 0; 0; 1; 1] <= 4 * 2 /\
  (forallb finished [Finished 8; Finished 8] = true ->
   length [0; 0; 1; 1; 0; 0; 1; 1] = 4 * 2).
Proof.
  apply (schedule_length [0; 0; 1; 1; 0; 0; 1; 1] (Some 7%Z) 2
           (mkSystem (Some 8%Z) false [Finished 8; Finished 8])).
  reflexivity.
Defined.

(** X1: [n] POSTs served one after the other, none overlapping another,
    all finish, release the lock, and leave the stored count exactly [n]
    higher than it was read at the start. *)
Theorem serial_posts (n : nat) (f : count_file) :
  exists final,
    run (serial 0 n) (initial f n) = Some final /\
    get_visitor_count_from_file (stored final) =
      (get_visitor_count_from_file f + Z.of_nat n)%Z /\
    forallb finished (handlers final) = true /\
    locked final = false.
Proof.
  destruct (CounterFacts.serial_increments n f []) as (f' & done' & E & C & F).
  exists (mkSystem f' false done'). repeat split; assumption.
Qed.

End CounterInvFacts.

(* ================================================================== *)
(** ** The counter endpoint, one request at a time *)
(* ================================================================== *)

Module VisitorFacts.
Import PyStr Endpoint Visitor.

Section Interpreter.

Variable attribute_error : json -> str.
Variable add_error : json -> str.
Variable float_succ : spec_float -> spec_float.
Variable save_fails : json -> counter_file -> option (str * counter_file).

Let get := get_visitor_count_from_file attribute_error.
Let handle := visitor_counter attribute_error add_error float_succ save_fails.
Let serve := serve attribute_error add_error float_succ save_fails.

Lemma get_stands_at (n : Z) : get (stands_at n) = Done (JInt n).
Proof. reflexivity. Qed.

Lemma post_counts (f : counter_file) (n : Z) :
  (forall v g, save_fails v g = None) ->
  get f = Done (JInt n) ->
  handle Post f = (Done (CountBody (JInt (n + 1)), 200), stands_at (n + 1)).
Proof.
  intros D G. unfold handle, visitor_counter. fold get. rewrite G.
  cbn [add_one]. unfold save_visitor_count_to_file. now rewrite D.
Qed.

Lemma get_reads (f : counter_file) (n : Z) :
  get f = Done (JInt n) ->
  handle Get f = (Done (CountBody (JInt n), 200), f).
Proof.
  intros G. unfold handle, visitor_counter. fold get. now rewrite G.
Qed.

Lemma serve_counts (requests : list verb) (f : counter_file) (n : Z) :
  (forall v g, save_fails v g = None) ->
  get f = Done (JInt n) ->
  exists f',
    serve requests f = (expected n requests, f') /\
    (posts requests = 0 -> f' = f) /\
    (1 <= posts requests -> f' = stands_at (n + Z.of_nat (posts requests))).
Proof.
  intros D. revert f n; induction requests as [|m rest IH]; intros f n G.
  - exists f. repeat split. unfold posts. simpl. lia.
  - unfold serve. cbn [Visitor.serve]. fold serve. fold handle.
    destruct m; cbn [expected].
    + rewrite (get_reads f n G).
      destruct (IH f n G) as (f' & E & Z & P). rewrite E.
      exists f'. repeat split; assumption.
    + rewrite (post_counts f n D G).
      destruct (IH (stands_at (n + 1)) (n + 1)%Z (get_stands_at _))
        as (f' & E & Z & P).
      rewrite E. exists f'. split; [reflexivity|].
      unfold posts in *. cbn [List.filter is_post length]. split; [lia|].
      intros _. destruct (length (List.filter is_post rest)) as [|k] eqn:K.
      * rewrite (Z eq_refl). apply f_equal. lia.
      * rewrite P by lia. apply f_equal. lia.
    + unfold handle. cbn [visitor_counter].
      destruct (IH f n G) as (f' & E & Z & P). rewrite E.
      exists f'. repeat split; assumption.
Qed.

(** X7: while writing the file succeeds, a counter that reads as the
    integer [n] (a missing or unreadable file and an object without
    "count" read as 0) serves any sequence of requests without failing:
    every GET answers the current count, every POST the count plus one;
    after the sequence the file reads as [n] plus the number of POSTs. *)
Theorem counter_counts (requests : list verb) (f : counter_file) (n : Z) :
  (forall v g, save_fails v g = None) ->
  get f = Done (JInt n) ->
  fst (serve requests f) = expected n requests /\
  get (snd (serve requests f)) = Done (JInt (n + Z.of_nat (posts requests))).
Proof.
  intros D G. destruct (serve_counts requests f n D G) as (f' & E & Z & P).
  rewrite E. cbn [fst snd]. split; [reflexivity|].
  destruct (posts requests) as [|k] eqn:K.
  - rewrite (Z eq_refl), G. apply f_equal. apply f_equal. lia.
  - rewrite P by lia. apply get_stands_at.
Qed.

(** X8: a POST that succeeds rewrites the file as the object with the one
    member "count": after at least one POST of the sequence the file
    holds exactly that object, whatever other members it held before. *)
Theorem post_rewrites_file (requests : list verb) (f : counter_file) (n : Z) :
  (forall v g, save_fails v g = None) ->
  get f = Done (JInt n) ->
  1 <= posts requests ->
  snd (serve requests f) =
  Holds (JObject [(lit "count", JInt (n + Z.of_nat (posts requests)))]).
Proof.
  intros D G H. destruct (serve_counts requests f n D G) as (f' & E & _ & P).
  rewrite E. cbn [snd]. exact (P H).
Qed.

(** X9: a file that holds JSON which is not an object is never repaired:
    every GET and POST fails with the [AttributeError] of [data.get], and
    the file stays as it is, for any sequence of requests. *)
Theorem non_object_file_stays (requests : list verb) (data : json) :
  is_object data = false ->
  serve requests (Holds data) =
  (List.map (refusal attribute_error data) requests, Holds data).
Proof.
  intros H. induction requests as [|m rest IH]; [reflexivity|].
  unfold serve. cbn [Visitor.serve]. fold serve.
  assert (R : visitor_counter attribute_error add_error float_succ save_fails
                m (Holds data) = (refusal attribute_error data m, Holds data)).
  { destruct m, data; try discriminate; reflexivity. }
  rewrite R, IH. reflexivity.
Qed.

(** X10: when "count" holds a value that is not a number, GET answers
    that value as it is with 200, and POST fails with the [TypeError] of
    [+ 1] and leaves the file as it is. *)
Theorem non_number_count (members : list (str * json)) (v : json) :
  lookup (lit "count") members = Some v ->
  is_number v = false ->
  handle Get (Holds (JObject members)) =
    (Done (CountBody v, 200), Holds (JObject members)) /\
  handle Post (Holds (JObject members)) =
    (Fails (add_error v), Holds (JObject members)).
Proof.
  intros L N. unfold handle, visitor_counter, get_visitor_count_from_file.
  rewrite L. split; [reflexivity|].
  destruct v; try discriminate; reflexivity.
Qed.

(** X11: the file as the interleaving model sees it.  For a counter that
    reads as an integer, the abstract file reads the same, and a POST
    acts on it as the read, the [+ 1] and the save of that model. *)
Theorem abstraction_sound (f : counter_file) (n : Z) :
  (forall v g, save_fails v g = None) ->
  get f = Done (JInt n) ->
  Counter.get_visitor_count_from_file (abstraction f) = n /\
  abstraction (snd (handle Post f)) =
    Counter.save_visitor_count_to_file
      (Counter.get_visitor_count_from_file (abstraction f) + 1) /\
  fst (handle Post f) =
    Done (CountBody
            (JInt (Counter.get_visitor_count_from_file (abstraction f) + 1)),
          200).
Proof.
  intros D G.
  assert (A : Counter.get_visitor_count_from_file (abstraction f) = n).
  { unfold get, get_visitor_count_from_file in G. unfold abstraction.
    destruct f as [| |d|data]; try (injection G as <-; reflexivity);
      try discriminate.
    destruct data; try discriminate.
    destruct (lookup (lit "count") members) as [v|];
      injection G as G; [subst v | subst n]; reflexivity. }
  rewrite (post_counts f n D G), A. cbn [fst snd]. repeat split.
Qed.

End Interpreter.

Lemma counter_counts_witness :
  fst (sample_serve [Get; Post; Options; Post; Get] Missing)
    = expected 0 [Get; Post; Options; Post; Get] /\
  get_visitor_count_from_file (fun _ => lit "object has no attribute 'get'")
    (snd (sample_serve [Get; Post; Options; Post; Get] Missing))
    = Done (JInt (0 + Z.of_nat (posts [Get; Post; Options; Post; Get]))).
Proof.
  apply (counter_counts (fun _ => lit "object has no attribute 'get'")
           (fun _ => lit "unsupported operand type(s) for +")
           (fun x => x) (fun _ _ => None)
           [Get; Post; Options; Post; Get] Missing 0); reflexivity.
Defined.

Lemma post_rewrites_file_witness :
  snd (sample_serve [Post; Get]
         (Holds (JObject [(lit "since", JString (lit "2024"));
                          (lit "count", JInt 41)])))
  = Holds (JObject [(lit "count", JInt (41 + Z.of_nat (posts [Post; Get])))]).
Proof.
  apply (post_rewrites_file (fun _ => lit "object has no attribute 'get'")
           (fun _ => lit "unsupported operand type(s) for +")
           (fun x => x) (fun _ _ => None)
           [Post; Get]
           (Holds (JObject [(lit "since", JString (lit "2024"));
                            (lit "count", JInt 41)])) 41);
    [reflexivity | reflexivity | vm_compute; lia].
Defined.

Lemma non_object_file_stays_witness :
  sample_serve [Get; Post] (Holds (JArray [JInt 3])) =
  (List.map (refusal (fun _ => lit "object has no attribute 'get'")
               (JArray [JInt 3])) [Get; Post],
   Holds (JArray [JInt 3])).
Proof.
  apply (non_object_file_stays (fun _ => lit "object has no attribute 'get'")
           (fun _ => lit "unsupported operand type(s) for +")
           (fun x => x) (fun _ _ => None) [Get; Post] (JArray [JInt 3])).
  reflexivity.
Defined.

Lemma non_number_count_witness :
  sample_counter Get (Holds (JObject [(lit "count", JString (lit "7"))])) =
    (Done (CountBody (JString (lit "7")), 200),
     Holds (JObject [(lit "count", JString (lit "7"))])) /\
  sample_counter Post (Holds (JObject [(lit "count", JString (lit "7"))])) =
    (Fails (lit "unsupported operand type(s) for +"),
     Holds (JObject [(lit "count", JString (lit "7"))])).
Proof.
  apply (non_number_count (fun _ => lit "object has no attribute 'get'")
           (fun _ => lit "unsupported operand type(s) for +")
           (fun x => x) (fun _ _ => None)
           [(lit "count", JString (lit "7"))] (JString (lit "7")));
    reflexivity.
Defined.

Lemma abstraction_sound_witness :
  Counter.get_visitor_count_from_file (abstraction Corrupt) = 0%Z /\
  abstraction (snd (sample_counter Post Corrupt)) =
    Counter.save_visitor_count_to_file
      (Counter.get_visitor_count_from_file (abstraction Corrupt) + 1) /\
  fst (sample_counter Post Corrupt) =
    Done (CountBody
            (JInt (Counter.get_visitor_count_from_file (abstraction Corrupt) + 1)),
          200).
Proof.
  apply (abstraction_sound (fun _ => lit "object has no attribute 'get'")
           (fun _ => lit "unsupported operand type(s) for +")
           (fun x => x) (fun _ _ => None) Corrupt 0); reflexivity.
Defined.

End VisitorFacts.

(* ================================================================== *)
(** ** The health endpoint *)
(* ================================================================== *)

Module HealthFacts.
Import PyStr Health.

(** X12: the health endpoint always answers 200; it reports "healthy" with
    [java_available] true exactly when the probe ran at most 5 seconds and
    returned code 0, and "degraded" with [java_available] false in every
    other case, a probe that raises included. *)
Theorem health_status (class_path : str) (p : probe) :
  let h := fst (health_check class_path p) in
  snd (health_check class_path p) = 200 /\
  validator_path h = class_path /\
  ((exists seconds, p = Ran seconds 0 /\ (seconds <= 5)%Q) ->
   status h = lit "healthy" /\ java_available h = true) /\
  (~ (exists seconds, p = Ran seconds 0 /\ (seconds <= 5)%Q) ->
   status h = lit "degraded" /\ java_available h = false).
Proof.
  cbn [health_check fst snd status java_available validator_path].
  split; [reflexivity|]. split; [reflexivity|]. split.
  - intros (seconds & -> & L). cbn [java_check].
    apply Qle_bool_iff in L. rewrite L. split; reflexivity.
  - intros N. destruct p as [d | seconds rc]; cbn [java_check].
    + split; reflexivity.
    + destruct (Qle_bool seconds 5) eqn:L; [|split; reflexivity].
      destruct (Z.eqb_spec rc 0) as [-> | _]; [|split; reflexivity].
      exfalso. apply N. exists seconds. split; [reflexivity|].
      now apply Qle_bool_iff.
Qed.

Lemma health_status_witness :
  status (fst (health_check (lit "/srv/libs") (Ran 1 0))) = lit "healthy" /\
  java_available (fst (health_check (lit "/srv/libs") (Ran 1 0))) = true.
Proof.
  apply (proj1 (proj2 (proj2 (health_status (lit "/srv/libs") (Ran 1 0))))).
  exists 1%Q. split; [reflexivity|]. vm_compute. discriminate.
Defined.

End HealthFacts.

(* ================================================================== *)
(** ** Splitting, joining and stripping *)
(* ================================================================== *)

Module PyJoinFacts.
Import PyStr PyJoin PyStrFacts.

Section Separator.

Variable sep : str.
Hypothesis sep_nonempty : sep <> [].

Lemma split_n_nonempty (n : nat) (s : str) : split_n sep n s <> [].
Proof. destruct n; cbn [split_n]; [easy|]. destruct (find sep s); easy. Qed.

Lemma join_cons (x : str) (l : list str) :
  l <> [] -> join sep (x :: l) = x ++ sep ++ join sep l.
Proof.
  destruct l as [|y l]; [easy|]. intros _. cbn [join flat_map].
  now rewrite <- app_assoc.
Qed.

(** The first occurrence is at most where any occurrence is. *)
Lemma find_le (a r : str) :
  exists j, find sep (a ++ sep ++ r) = Some j /\ j <= length a.
Proof.
  induction a as [|c a (j & E & L)].
  - exists 0. cbn [app]. split; [apply find_startswith | simpl; lia].
  - cbn [app find]. destruct (startswith sep (c :: a ++ sep ++ r)).
    + exists 0. split; [reflexivity | simpl; lia].
    + rewrite E. exists (S j). split; [reflexivity | simpl; lia].
Qed.

Lemma before_first_free (s : str) (i : nat) :
  find sep s = Some i -> contains sep (firstn i s) = false.
Proof.
  intros E. apply contains_false_iff. intros (a & b & H).
  pose proof (@find_Some_bound sep s i E) as B.
  assert (S : s = a ++ sep ++ (b ++ skipn i s)).
  { rewrite <- (firstn_skipn i s) at 1. rewrite H. now rewrite <- !app_assoc. }
  destruct (find_le a (b ++ skipn i s)) as (j & F & L).
  rewrite <- S, E in F. injection F as <-.
  assert (K : length (firstn i s) = length (a ++ sep ++ b)) by now rewrite H.
  rewrite length_firstn, !length_app in K.
  assert (0 < length sep) by (destruct sep; [easy | simpl; lia]).
  lia.
Qed.

Lemma split_n_free (n : nat) (s piece : str) :
  length s <= n -> In piece (split_n sep n s) -> contains sep piece = false.
Proof.
  revert s; induction n as [|n IH]; intros s L; cbn [split_n].
  - intros [<- | []]. destruct s; [|simpl in L; lia].
    destruct sep; [easy | reflexivity].
  - destruct (find sep s) as [i|] eqn:E.
    + intros [<- | H]; [now apply before_first_free|].
      apply (IH (skipn (i + length sep) s)); [|exact H].
      apply find_Some_bound in E. rewrite length_skipn.
      assert (0 < length sep) by (destruct sep; [easy | simpl; lia]). lia.
    + intros [<- | []]. now apply find_None_iff.
Qed.

(** X13: [s.split(sep)] and [sep.join] are inverse, also for a bounded
    number of cuts, and no piece of the unbounded split contains the
    separator.  For the parser: the lines of the output, joined by
    newlines, are the output, and no line contains a newline. *)
Theorem join_split (s : str) :
  (forall maxsplit, join sep (split_n sep maxsplit s) = s) /\
  join sep (split sep s) = s /\
  (forall piece, In piece (split sep s) -> ~ occurs sep piece).
Proof.
  assert (J : forall n t, join sep (split_n sep n t) = t).
  { induction n as [|n IH]; intros t; cbn [split_n].
    - simpl. apply app_nil_r.
    - destruct (find sep t) as [i|] eqn:E; [|simpl; apply app_nil_r].
      rewrite join_cons by apply split_n_nonempty.
      rewrite IH. symmetry. now apply find_Some_split. }
  split; [intros n; apply J|]. split; [apply J|].
  intros piece H. apply contains_false_iff.
  apply (split_n_free (length s) s piece (Nat.le_refl _) H).
Qed.

End Separator.

Lemma join_split_witness :
  (forall maxsplit,
      join [nl] (split_n [nl] maxsplit (lit "a" ++ nl :: lit "b")) =
      lit "a" ++ nl :: lit "b") /\
  join [nl] (split [nl] (lit "a" ++ nl :: lit "b")) = lit "a" ++ nl :: lit "b" /\
  (forall piece, In piece (split [nl] (lit "a" ++ nl :: lit "b")) ->
                 ~ occurs [nl] piece).
Proof.
  apply (join_split [nl]). discriminate.
Defined.

Section Strip.

Variable isspace : char -> bool.

Lemma lstrip_suffix (s : str) : exists ws, s = ws ++ lstrip isspace s.
Proof. destruct (lstrip_decomp isspace s) as (ws & E & _). now exists ws. Qed.

Lemma rstrip_prefix (s : str) : exists ws, s = rstrip isspace s ++ ws.
Proof.
  unfold rstrip. destruct (lstrip_suffix (rev s)) as [ws E].
  exists (rev ws). rewrite <- rev_app_distr, <- E. symmetry. apply rev_involutive.
Qed.

Lemma strip_occurs (s : str) : occurs (strip isspace s) s.
Proof.
  unfold strip. destruct (lstrip_suffix s) as [a Ea].
  destruct (rstrip_prefix (lstrip isspace s)) as [b Eb].
  exists a, b. rewrite <- Eb. exact Ea.
Qed.

Lemma rstrip_last (s t : str) (c : char) :
  rstrip isspace s = t ++ [c] -> isspace c = false.
Proof.
  unfold rstrip. intros H.
  assert (R : lstrip isspace (rev s) = c :: rev t).
  { rewrite <- (rev_involutive (lstrip isspace (rev s))), H, rev_app_distr.
    reflexivity. }
  exact (@lstrip_head isspace (rev s) c (rev t) R).
Qed.

Lemma rstrip_head (s : str) (c : char) (t : str) :
  rstrip isspace s = c :: t -> exists t', s = c :: t'.
Proof.
  intros H. destruct (rstrip_prefix s) as [ws E]. rewrite H in E.
  exists (t ++ ws). exact E.
Qed.

(** X14: a stripped string is a substring of the string, and neither its
    first nor its last character is white space. *)
Theorem strip_clean (s : str) :
  occurs (strip isspace s) s /\
  (forall c t, strip isspace s = c :: t -> isspace c = false) /\
  (forall t c, strip isspace s = t ++ [c] -> isspace c = false).
Proof.
  split; [apply strip_occurs|]. split.
  - intros c t H. unfold strip in H.
    destruct (rstrip_head _ _ _ H) as [t' E].
    exact (@lstrip_head isspace s c t' E).
  - intros t c H. exact (rstrip_last _ _ _ H).
Qed.

End Strip.

Lemma strip_clean_witness :
  strip ascii_isspace (lit "  1. foo ") = lit "1. foo" /\
  ascii_isspace 49%N = false /\ ascii_isspace 111%N = false.
Proof.
  destruct (strip_clean ascii_isspace (lit "  1. foo ")) as (_ & H & L).
  split; [reflexivity|]. split.
  - apply (H 49%N (lit ". foo")). reflexivity.
  - apply (L (lit "1. fo") 111%N). reflexivity.
Defined.

End PyJoinFacts.

(* ================================================================== *)
(** ** The output parser: where its texts come from *)
(* ================================================================== *)

Module ParserMoreFacts.
Import PyStr PyJoin Parser PyStrFacts PyJoinFacts.

Section Tables.

Variable isspace : char -> bool.
Variable isdigit : char -> bool.

Lemma error_section_occurs (output : str) : occurs (error_section output) output.
Proof.
  unfold error_section. eapply occurs_trans; apply ParserFacts.nth_split_occurs.
Qed.

Lemma error_line_occurs (section line : str) :
  In line (error_lines isspace isdigit section) ->
  line <> [] /\ occurs line section /\
  (forall t c, line = t ++ [c] -> isspace c = false).
Proof.
  unfold error_lines. intros H. apply in_map_iff in H as (raw & <- & H).
  apply filter_In in H as [H N]. split; [|split].
  - unfold numbered in N. apply andb_true_iff in N as [N _].
    destruct (strip isspace raw); [discriminate | easy].
  - eapply occurs_trans; [apply strip_occurs|]. now apply split_occurs in H.
  - apply (strip_clean isspace raw).
Qed.

Lemma entry_occurs (line : str) : occurs (entry line) line.
Proof.
  unfold entry. destruct (contains DOT_SPACE line) eqn:C; [|apply occurs_refl].
  cbn [split_n]. destruct (find DOT_SPACE line) as [i|] eqn:E.
  - cbn [nth]. exists (firstn (i + length DOT_SPACE) line), [].
    rewrite app_nil_r. symmetry. apply firstn_skipn.
  - apply find_None_iff in E. congruence.
Qed.

(** The entry of a line that does not end with a space is not empty. *)
Lemma entry_nonempty (line : str) :
  line <> [] ->
  (forall t, line <> t ++ [SPACE]) ->
  entry line <> [].
Proof.
  intros NE NS. unfold entry.
  destruct (contains DOT_SPACE line) eqn:C; [|exact NE].
  cbn [split_n]. destruct (find DOT_SPACE line) as [i|] eqn:E.
  - cbn [nth]. intros Z. apply (NS (firstn i line ++ [46%N])).
    rewrite (@find_Some_split DOT_SPACE line i E) at 1. rewrite Z.
    rewrite <- app_assoc. reflexivity.
  - apply find_None_iff in E. congruence.
Qed.

(** X15: every entry of the error list is a piece of the console output:
    a substring of it.  With a table that counts the space as white space,
    no entry is empty. *)
Theorem errors_from_output (output : str) :
  (forall e, In e (errors (parse_output isspace isdigit output)) ->
             occurs e output) /\
  (isspace SPACE = true ->
   forall e, In e (errors (parse_output isspace isdigit output)) -> e <> []).
Proof.
  cbn [parse_output errors]. unfold extract_errors.
  destruct (contains ERRORS_FOUND output); [|split; [|intros _]; intros e []].
  split; [|intros S]; intros e H;
    apply in_map_iff in H as (line & <- & H);
    apply error_line_occurs in H as (NE & O & L).
  - eapply occurs_trans; [apply entry_occurs|].
    eapply occurs_trans; [exact O | apply error_section_occurs].
  - apply entry_nonempty; [exact NE|].
    intros t E. specialize (L t SPACE E). congruence.
Qed.

(** What the loop can return: the value it started with, or a line of the
    text, stripped. *)
Lemma scan_result (marker : str) (lines : list str)
      (todo : list (nat * str)) (msg : str) :
  scan isspace marker lines todo msg = msg \/
  exists k, scan isspace marker lines todo msg = strip isspace (nth k lines []).
Proof.
  revert msg; induction todo as [|[i line] todo IH]; intros msg; cbn [scan];
    [now left|].
  destruct (contains marker line && (i + 1 <? length lines)); [|apply IH].
  destruct (truthy (strip isspace (nth (i + 1) lines []))).
  - right. now exists (i + 1).
  - destruct (IH (strip isspace (nth (i + 1) lines []))) as [E | [k E]].
    + right. exists (i + 1). exact E.
    + right. now exists k.
Qed.

(** X16: the message is the fallback "Validation completed" or a
    substring of the console output. *)
Theorem message_from_output (output : str) :
  message (parse_output isspace isdigit output) = FALLBACK \/
  occurs (message (parse_output isspace isdigit output)) output.
Proof.
  cbn [parse_output message]. unfold extract_message, line_after.
  assert (S : forall marker,
             let lines := split [nl] output in
             scan isspace marker lines (enumerate lines) FALLBACK = FALLBACK \/
             occurs (scan isspace marker lines (enumerate lines) FALLBACK) output).
  { intros marker lines.
    destruct (scan_result marker lines (enumerate lines) FALLBACK) as [E | [k E]];
      [now left | right]. rewrite E.
    eapply occurs_trans; [apply strip_occurs | apply ParserFacts.nth_split_occurs]. }
  destruct (contains INVALID output); [apply S|].
  destruct (contains VALID output || contains WELL_FORMED_SHORT output);
    [|now left].
  destruct (contains WELL_FORMED output) eqn:W; [|apply S].
  right. now apply contains_iff.
Qed.

(** The loop when no marker line is followed by a line that is not blank:
    the empty string once such a line was passed, else the start value. *)
Lemma scan_blank (marker : str) (lines : list str) :
  (forall j, j + 1 < length lines -> contains marker (nth j lines []) = true ->
             strip isspace (nth (j + 1) lines []) = []) ->
  forall d k msg, k + d = length lines ->
    scan isspace marker lines (pending lines k) msg =
    if existsb (fun j => contains marker (nth j lines []) && (j + 1 <? length lines))
               (seq k d)
    then [] else msg.
Proof.
  intros B. induction d as [|d IH]; intros k msg K.
  - unfold pending. replace (length lines - k) with 0 by lia. reflexivity.
  - rewrite ParserFacts.pending_step by lia. cbn [scan seq existsb].
    destruct (contains marker (nth k lines []) && (k + 1 <? length lines)) eqn:C.
    + apply andb_true_iff in C as [C L]. apply Nat.ltb_lt in L.
      rewrite (B k L C). cbn [truthy orb]. rewrite IH by lia.
      now destruct (existsb _ _).
    + cbn [orb]. apply IH. lia.
Qed.

(** X17: with "INVALID JSON" in the text, when every line that contains
    it and has a next line is followed by a blank line, the message is
    the empty string if there is such a line, and the fallback
    "Validation completed" if the marker stands only in the last line. *)
Theorem message_without_next_line (output : str) :
  let lines := split [nl] output in
  occurs INVALID output ->
  (forall j, j + 1 < length lines -> occurs INVALID (nth j lines []) ->
             strip isspace (nth (j + 1) lines []) = []) ->
  ((exists j, j + 1 < length lines /\ occurs INVALID (nth j lines [])) ->
   message (parse_output isspace isdigit output) = []) /\
  ((forall j, j + 1 < length lines -> ~ occurs INVALID (nth j lines [])) ->
   message (parse_output isspace isdigit output) = FALLBACK).
Proof.
  intros lines I B. cbn [parse_output message]. unfold extract_message, line_after.
  apply contains_iff in I. rewrite I. fold lines.
  rewrite <- ParserFacts.pending_0.
  rewrite (scan_blank INVALID lines) with (d := length lines);
    [| intros j L C; apply B; [exact L | now apply contains_iff] | lia].
  split.
  - intros (j & L & C). apply contains_iff in C.
    replace (existsb _ _) with true; [reflexivity|].
    symmetry. apply existsb_exists. exists j. split.
    + apply in_seq. lia.
    + rewrite C. now apply Nat.ltb_lt.
  - intros N. replace (existsb _ _) with false; [reflexivity|].
    symmetry. apply not_true_is_false. intros E.
    apply existsb_exists in E as (j & _ & E).
    apply andb_true_iff in E as [C L]. apply Nat.ltb_lt in L.
    apply (N j L). now apply contains_iff.
Qed.

End Tables.

Lemma errors_from_output_witness :
  Forall (fun e => e <> [])
    (errors (parse_output ascii_isspace ascii_isdigit invalid_report)).
Proof.
  apply Forall_forall.
  apply (proj2 (errors_from_output ascii_isspace ascii_isdigit invalid_report)).
  reflexivity.
Defined.

Lemma message_without_next_line_witness :
  message (parse_output ascii_isspace ascii_isdigit invalid_then_blank) = [].
Proof.
  apply (message_without_next_line ascii_isspace ascii_isdigit invalid_then_blank).
  - apply contains_iff. reflexivity.
  - intros j L _.
    assert (K : length (split [nl] invalid_then_blank) = 3) by reflexivity.
    rewrite K in L. destruct j as [|[|j]]; [reflexivity | reflexivity | lia].
  - exists 0. split; [vm_compute; lia | apply contains_iff; reflexivity].
Defined.

End ParserMoreFacts.

(* ================================================================== *)
(** ** The validation endpoint: every request *)
(* ================================================================== *)

Module EndpointMoreFacts.
Import PyStr Parser Endpoint Effects EndpointFacts.

Lemma remove_path_fresh (p : path) (fs : list path) :
  ~ In p fs -> remove_path p fs = fs.
Proof.
  induction fs as [|q fs IH]; simpl; [reflexivity|].
  intros H. destruct (str_eqb p q) eqn:E.
  - apply str_eqb_eq in E. subst q. exfalso. apply H. now left.
  - f_equal. apply IH. intros I. apply H. now right.
Qed.

Section Environment.

Variable isspace : char -> bool.
Variable isdigit : char -> bool.
Variable type_error : operation -> json -> str.
Variable tempname : list path -> attempt path.
Variable write_fails : path -> str -> option str.
Variable java : path -> list path -> process * list path.

Let validate_json :=
  validate_json isspace isdigit type_error tempname write_fails java.
Let guarded := guarded isspace isdigit type_error tempname write_fails java.
Let run_validator := run_validator isspace isdigit java.

(** Lines 100-173 on a file [p]: what comes back and what is left. *)
Lemma run_validator_outcome (p : path) (w : world) :
  exists r w',
    run_validator p w = (r, w') /\
    created w' = created w /\ invoked w' = p :: invoked w /\
    ~ In p (files w') /\
    match java p (files w) with
    | (Broken d, _) => r = Raise (Failure d)
    | (Exits seconds stdout, _) =>
        r = if Qle_bool seconds 10
            then Ret (Json (parse_output isspace isdigit stdout), 200)
            else Raise TimeoutExpired
    end.
Proof.
  unfold run_validator, Endpoint.run_validator, try_finally, bind,
    subprocess_run, ret.
  destruct (java p (files w)) as [proc fs].
  set (w1 := {| files := fs; created := created w; invoked := p :: invoked w |}).
  destruct (cleanup_removes p w1) as (w2 & C & G & K & I).
  destruct proc as [d | seconds stdout]; [|destruct (Qle_bool seconds 10)];
    cbv beta iota; rewrite C; eexists; exists w2;
    (split; [reflexivity | repeat split; assumption]).
Qed.

(** X18: a request whose validator run ends within the 10 seconds gets
    status 200 and the verdict parsed from the validator's standard
    output, whether that verdict is valid or not; the temporary file is
    gone and the validator ran once, on that file. *)
Theorem validated_response (req : request) (members : list (str * json))
        (s : str) (p : path) (w : world)
        (seconds : Q) (stdout : str) (fs : list path) :
  method req = POST ->
  get_json req = Done (JObject members) ->
  lookup (lit "json") members = Some (JString s) ->
  tempname (files w) = Done p ->
  write_fails p s = None ->
  java p (p :: files w) = (Exits seconds stdout, fs) ->
  (seconds <= 10)%Q ->
  exists w',
    validate_json req w =
      (Ret (Json (parse_output isspace isdigit stdout), 200), w') /\
    ~ In p (files w') /\
    invoked w' = p :: invoked w.
Proof.
  intros Hm Hj Hl Ht Hw Hrun Hfast.
  unfold validate_json, Endpoint.validate_json. rewrite Hm.
  unfold try_except.
  rewrite (@guarded_reaches_run isspace isdigit type_error tempname write_fails
             java req members s p w Hj Hl Ht Hw).
  destruct (run_validator_outcome p (with_temp p w))
    as (r & w' & E & _ & I & G & R).
  fold run_validator. rewrite E.
  cbn [with_temp files] in R. rewrite Hrun in R.
  apply Qle_bool_iff in Hfast. rewrite Hfast in R. subst r.
  exists w'. repeat split; assumption.
Qed.

Lemma guarded_outcome (req : request) (w : world) :
  exists r w',
    guarded req w = (r, w') /\ effect w w' /\
    match r with
    | Ret (_, code) => code = 200 \/ code = 400
    | Raise _ => True
    end.
Proof.
  unfold guarded, Endpoint.guarded, bind, of_attempt.
  destruct (get_json req) as [data | d]; cbn [ret raise].
  2: { eexists; exists w. split; [reflexivity|]. split; [now constructor | exact I]. }
  assert (U : effect w w) by now constructor.
  destruct (truth data) eqn:T; cbn [negb].
  2: { eexists; exists w. split; [reflexivity|]. split; [exact U | now right]. }
  destruct data as [|b|n|x|str|items|members]; cbn [py_in ret raise];
    try (eexists; exists w; split; [reflexivity | split; [exact U | exact I]]).
  - destruct (contains (lit "json") str); cbn [negb py_getitem raise];
      eexists; exists w; (split; [reflexivity | split; [exact U|]]);
      [exact I | now right].
  - destruct (existsb (is_str (lit "json")) items); cbn [negb py_getitem raise];
      eexists; exists w; (split; [reflexivity | split; [exact U|]]);
      [exact I | now right].
  - destruct (lookup (lit "json") members) as [json_input|] eqn:L;
      cbn [negb py_getitem].
    2: { eexists; exists w. split; [reflexivity|]. split; [exact U | now right]. }
    rewrite L. cbn [ret]. unfold named_temporary_file.
    destruct (tempname (files w)) as [p | d].
    2: { eexists; exists w. split; [reflexivity|]. split; [exact U | exact I]. }
    assert (W : effect w (with_temp p w)) by (now apply Leaked with (p := p)).
    destruct (run_validator_outcome p (with_temp p w))
      as (r & w' & E & C & V & G & R).
    fold run_validator.
    assert (K : effect w w') by (now apply Ran with (p := p)).
    assert (S : match r with
                | Ret (_, code) => code = 200 \/ code = 400
                | Raise _ => True
                end).
    { destruct (java p (files (with_temp p w))) as [[d | seconds stdout] fs];
        subst r; [exact I|]. destruct (Qle_bool seconds 10); [now left | exact I]. }
    destruct json_input as [|b|n|x|str|items|members']; cbn [write_and_close raise];
      try (eexists; exists (with_temp p w);
           split; [reflexivity | split; [exact W | exact I]]).
    destruct (write_fails p str) as [d|]; cbn [ret raise].
    + eexists; exists (with_temp p w). split; [reflexivity|].
      split; [exact W | exact I].
    + rewrite E. exists r, w'. split; [reflexivity|]. split; assumption.
Qed.

(** X19: the handler never lets an exception out: every request, in every
    environment, gets a response, with status 200, 204, 400 or 500; 204
    exactly for OPTIONS. *)
Theorem always_responds (req : request) (w : world) :
  exists body code w',
    validate_json req w = (Ret (body, code), w') /\
    (code = 200 \/ code = 204 \/ code = 400 \/ code = 500) /\
    (code = 204 <-> method req = OPTIONS).
Proof.
  unfold validate_json, Endpoint.validate_json.
  destruct (method req) eqn:M.
  - unfold try_except. fold guarded.
    destruct (guarded_outcome req w) as (r & w' & E & _ & S). rewrite E.
    destruct r as [[b code] | [|d]]; cbn [handler ret].
    + exists b, code, w'. split; [reflexivity|].
      split; [tauto|]. split; [lia | discriminate].
    + eexists; exists 500, w'. split; [reflexivity|].
      split; [tauto|]. split; [lia | discriminate].
    + eexists; exists 500, w'. split; [reflexivity|].
      split; [tauto|]. split; [lia | discriminate].
  - exists Empty, 204, w. split; [reflexivity|]. split; [tauto|]. tauto.
Qed.

(** X20: what one request does to the world, in every environment: it
    leaves the files and the logs as they are; or it creates one temporary
    file and leaves it, without a validator run; or it creates one
    temporary file, runs the validator once, on that file, and the file
    does not exist when the handler returns.  There is no second run. *)
Theorem request_effect (req : request) (w : world) :
  effect w (snd (validate_json req w)).
Proof.
  unfold validate_json, Endpoint.validate_json.
  destruct (method req); [|now constructor].
  unfold try_except. fold guarded.
  destruct (guarded_outcome req w) as (r & w' & E & K & _). rewrite E.
  destruct r as [a | [|d]]; exact K.
Qed.

(** X21: when the name of the temporary file was not in use and the
    validator itself changes no file, a request that got to the validator
    leaves the files exactly as it found them, whatever the validator
    did: verdict, timeout or launch failure. *)
Theorem files_restored (req : request) (members : list (str * json))
        (s : str) (p : path) (w : world) (proc : process) :
  method req = POST ->
  get_json req = Done (JObject members) ->
  lookup (lit "json") members = Some (JString s) ->
  tempname (files w) = Done p ->
  ~ In p (files w) ->
  write_fails p s = None ->
  java p (p :: files w) = (proc, p :: files w) ->
  files (snd (validate_json req w)) = files w.
Proof.
  intros Hm Hj Hl Ht Hfresh Hw Hrun.
  unfold validate_json, Endpoint.validate_json. rewrite Hm.
  unfold try_except.
  rewrite (@guarded_reaches_run isspace isdigit type_error tempname write_fails
             java req members s p w Hj Hl Ht Hw).
  unfold Endpoint.run_validator, try_finally, bind, subprocess_run, ret.
  cbn [with_temp files created invoked]. rewrite Hrun.
  assert (C : forall c i,
             cleanup p {| files := p :: files w; created := c; invoked := i |} =
             (Ret tt, {| files := files w; created := c; invoked := i |})).
  { intros c i. unfold cleanup, bind, os_path_exists, os_remove.
    cbv beta iota. cbn [files created invoked].
    assert (X : exists_path p (p :: files w) = true)
      by (unfold exists_path; cbn [existsb]; now rewrite str_eqb_refl).
    assert (R : remove_path p (p :: files w) = files w)
      by (cbn [remove_path]; rewrite str_eqb_refl;
          exact (remove_path_fresh p (files w) Hfresh)).
    rewrite X. cbn [files created invoked]. now rewrite X, R. }
  destruct proc as [d | seconds stdout]; [|destruct (Qle_bool seconds 10)];
    cbv beta iota; rewrite C; reflexivity.
Qed.

(** X22: a body that is a number other than zero, or [true], gets 500
    "Server error" with the [TypeError] of ['json' in data] as its one
    error entry, not the 400 of the missing field; nothing is created or
    run. *)
Theorem scalar_body_server_error (req : request) (data : json) (w : world) :
  method req = POST ->
  get_json req = Done data ->
  truthy_scalar data = true ->
  validate_json req w = (Ret (SERVER_ERROR (type_error OpIn data)), w).
Proof.
  intros Hm Hj Hs.
  unfold validate_json, Endpoint.validate_json. rewrite Hm.
  unfold try_except, Endpoint.guarded, bind, of_attempt. rewrite Hj.
  destruct data as [|b|n|x| | |]; try discriminate; cbn [truthy_scalar] in Hs;
    cbn [ret truth]; rewrite ?Hs; reflexivity.
Qed.

(** X23: a body that is an array or a string passes the test of line 86
    when it has the element "json", or contains "json" as a substring;
    [data['json']] then raises and the response is 500 with that
    [TypeError].  Without it the response is the 400 of the missing
    field.  Either way nothing is created or run. *)
Theorem array_or_string_body (req : request) (data : json) (w : world)
        (found : bool) :
  method req = POST ->
  get_json req = Done data ->
  mentions_json data = Some found ->
  validate_json req w =
    (Ret (if found then SERVER_ERROR (type_error OpGetItem data)
          else MISSING_FIELD), w).
Proof.
  intros Hm Hj Hf.
  unfold validate_json, Endpoint.validate_json. rewrite Hm.
  unfold try_except, Endpoint.guarded, bind, of_attempt. rewrite Hj.
  destruct data as [| | | |[|c s]|[|item items]|]; try discriminate.
  - assert (F : contains (lit "json") (c :: s) = found)
      by (unfold mentions_json in Hf; congruence).
    cbn [ret truth truthy negb py_in]. rewrite F. destruct found; reflexivity.
  - assert (F : existsb (is_str (lit "json")) (item :: items) = found)
      by (unfold mentions_json in Hf; congruence).
    cbn [ret truth negb py_in]. rewrite F. destruct found; reflexivity.
Qed.

(** X24: when the body cannot be read as JSON, or the temporary file
    cannot be created, the response is 500 "Server error" with the text
    of that failure; no file is created and the validator is not run. *)
Theorem early_failure (req : request) (w : world) (descr : str) :
  method req = POST ->
  (get_json req = Fails descr \/
   exists members s,
     get_json req = Done (JObject members) /\
     lookup (lit "json") members = Some s /\
     tempname (files w) = Fails descr) ->
  validate_json req w = (Ret (SERVER_ERROR descr), w).
Proof.
  intros Hm H.
  unfold validate_json, Endpoint.validate_json. rewrite Hm.
  unfold try_except, Endpoint.guarded, bind, of_attempt.
  destruct H as [Hj | (members & s & Hj & Hl & Ht)]; rewrite Hj;
    [reflexivity|].
  assert (T : truth (JObject members) = true)
    by (destruct members; [discriminate | reflexivity]).
  unfold ret. cbv beta iota. rewrite T. cbn [negb py_in py_getitem].
  unfold ret. rewrite Hl. cbn [negb]. unfold named_temporary_file.
  rewrite Ht. reflexivity.
Qed.

End Environment.

Lemma validated_response_witness :
  exists w',
    sample_validate (Exits 2 valid_with_errors) (post sample_body) empty_world =
      (Ret (Json (parse_output ascii_isspace ascii_isdigit valid_with_errors),
            200), w') /\
    ~ In sample_temp (files w') /\
    invoked w' = sample_temp :: invoked empty_world.
Proof.
  apply (validated_response ascii_isspace ascii_isdigit sample_type_error
           (fun _ => Done sample_temp) (fun _ _ => None)
           (fun _ fs => (Exits 2 valid_with_errors, fs))
           (post sample_body) [(lit "json", JString (lit "[1, 2, 3,]"))]
           (lit "[1, 2, 3,]") sample_temp empty_world 2%Q valid_with_errors
           [sample_temp]); try reflexivity.
  vm_compute. discriminate.
Defined.

Lemma files_restored_witness :
  files (snd (sample_validate (Broken java_missing) (post sample_body)
                (mkWorld [lit "/tmp/other.txt"] [] [])))
  = [lit "/tmp/other.txt"].
Proof.
  apply (files_restored ascii_isspace ascii_isdigit sample_type_error
           (fun _ => Done sample_temp) (fun _ _ => None)
           (fun _ fs => (Broken java_missing, fs))
           (post sample_body) [(lit "json", JString (lit "[1, 2, 3,]"))]
           (lit "[1, 2, 3,]") sample_temp
           (mkWorld [lit "/tmp/other.txt"] [] []) (Broken java_missing));
    try reflexivity.
  vm_compute. intuition discriminate.
Defined.

Lemma scalar_body_server_error_witness :
  sample_validate (Exits 1 []) (post (JInt 5)) empty_world =
  (Ret (SERVER_ERROR (lit "argument is not iterable")), empty_world).
Proof.
  apply (scalar_body_server_error ascii_isspace ascii_isdigit sample_type_error
           (fun _ => Done sample_temp) (fun _ _ => None)
           (fun _ fs => (Exits 1 [], fs))
           (post (JInt 5)) (JInt 5) empty_world); reflexivity.
Defined.

Lemma array_or_string_body_witness :
  sample_validate (Exits 1 []) (post (JString (lit "{json}"))) empty_world =
  (Ret (SERVER_ERROR (lit "indices must be integers")), empty_world).
Proof.
  apply (array_or_string_body ascii_isspace ascii_isdigit sample_type_error
           (fun _ => Done sample_temp) (fun _ _ => None)
           (fun _ fs => (Exits 1 [], fs))
           (post (JString (lit "{json}"))) (JString (lit "{json}"))
           empty_world true); reflexivity.
Defined.

Lemma early_failure_witness :
  sample_validate (Exits 1 [])
    (mkRequest POST (Fails (lit "400 Bad Request"))) empty_world =
  (Ret (SERVER_ERROR (lit "400 Bad Request")), empty_world).
Proof.
  apply (early_failure ascii_isspace ascii_isdigit sample_type_error
           (fun _ => Done sample_temp) (fun _ _ => None)
           (fun _ fs => (Exits 1 [], fs))
           (mkRequest POST (Fails (lit "400 Bad Request"))) empty_world
           (lit "400 Bad Request")); [reflexivity | now left].
Defined.

End EndpointMoreFacts.

(* ================================================================== *)
(** ** The error list of every text *)
(* ================================================================== *)

Module SectionFacts.
Import PyStr PyJoin Parser Shapes PyStrFacts PyJoinFacts.

Lemma header_nonempty : ERRORS_FOUND <> [].
Proof. discriminate. Qed.

Lemma separator_nonempty : SEPARATOR <> [].
Proof. discriminate. Qed.

Lemma absent_by_test (x : char) (p : str) :
  forallb (fun c => negb (N.eqb c x)) p = true -> ~ In x p.
Proof.
  intros H I. rewrite forallb_forall in H. specialize (H x I).
  now rewrite N.eqb_refl in H.
Qed.

Lemma contains_by_find (sep s : str) (i : nat) :
  find sep s = Some i -> contains sep s = true.
Proof.
  intros F. destruct (contains sep s) eqn:C; [reflexivity|].
  apply find_None_iff in C. congruence.
Qed.

Lemma find_by_contains (sep s : str) :
  contains sep s = true -> exists i, find sep s = Some i.
Proof.
  intros C. destruct (find sep s) as [i|] eqn:F; [now exists i|].
  apply find_None_iff in F. congruence.
Qed.

(** The first piece of a split: it is free of the separator, and it is
    the whole text or is followed by the first separator. *)
Lemma split_head (sep : str) (s : str) :
  sep <> [] ->
  let h := nth 0 (split sep s) [] in
  contains sep h = false /\
  ((find sep s = None /\ h = s) \/
   (exists r, find sep s = Some (length h) /\ s = h ++ sep ++ r)).
Proof.
  intros NE h. subst h. rewrite (split_nth0 NE).
  destruct (find sep s) as [i|] eqn:F.
  - split; [exact (before_first_free sep NE s i F)|]. right.
    exists (skipn (i + length sep) s).
    pose proof (@find_Some_bound sep s i F) as B.
    rewrite length_firstn, Nat.min_l by lia.
    split; [reflexivity | exact (@find_Some_split sep s i F)].
  - split; [now apply find_None_iff | now left].
Qed.

Lemma no_piece_inside (sep part whole : str) :
  occurs part whole -> contains sep whole = false -> ~ occurs sep part.
Proof.
  intros O C H. apply contains_false_iff in C. apply C.
  exact (occurs_trans H O).
Qed.

Lemma header_clear (p r : str) :
  contains ERRORS_FOUND p = false ->
  clear_before ERRORS_FOUND p (ERRORS_FOUND ++ r).
Proof.
  intros C. rewrite ParserFacts.header_head in *.
  apply clear_before_border_free; [|exact C].
  apply absent_by_test. reflexivity.
Qed.

Lemma head_when_absent (sep s : str) :
  sep <> [] -> contains sep s = false -> nth 0 (split sep s) [] = s.
Proof.
  intros NE C. rewrite (split_nth0 NE).
  apply find_None_iff in C. now rewrite C.
Qed.

(** The section of a text cut as [first_section] says. *)
Lemma error_section_first (pre sec rest : str) :
  first_section pre sec rest ->
  error_section (pre ++ ERRORS_FOUND ++ sec ++ rest) = sec.
Proof.
  intros (P & S & Q & E).
  apply contains_false_iff in P, S, Q.
  destruct E as [-> | [[T L] | T]].
  - rewrite app_nil_r. unfold error_section.
    rewrite (split_first header_nonempty sec (header_clear pre sec P)).
    cbn [nth]. rewrite (head_when_absent _ _ header_nonempty S).
    exact (head_when_absent _ _ separator_nonempty Q).
  - apply startswith_iff in T as [r ->].
    now apply ParserFacts.error_section_between.
  - apply startswith_iff in T as [r ->]. unfold error_section.
    rewrite (split_first header_nonempty (sec ++ ERRORS_FOUND ++ r)
               (header_clear pre (sec ++ ERRORS_FOUND ++ r) P)).
    cbn [nth].
    rewrite (split_first header_nonempty r (header_clear sec r S)).
    cbn [nth]. exact (head_when_absent _ _ separator_nonempty Q).
Qed.

(** Every text with a header is cut that way, with the section the code
    computes. *)
Lemma error_section_cut (output : str) :
  contains ERRORS_FOUND output = true ->
  exists pre rest,
    output = pre ++ ERRORS_FOUND ++ error_section output ++ rest /\
    first_section pre (error_section output) rest.
Proof.
  intros C. destruct (find_by_contains _ _ C) as [i F].
  pose proof (@find_Some_split ERRORS_FOUND output i F) as E.
  pose proof (before_first_free _ header_nonempty output i F) as P.
  assert (X : error_section output =
              nth 0 (split SEPARATOR
                       (nth 0 (split ERRORS_FOUND
                                 (skipn (i + length ERRORS_FOUND) output)) [])) []).
  { unfold error_section. rewrite (split_unfold header_nonempty output), F.
    reflexivity. }
  rewrite X. clear X.
  remember (firstn i output) as pre eqn:Dpre.
  remember (skipn (i + length ERRORS_FOUND) output) as after eqn:Dafter.
  clear Dpre Dafter F C.
  pose proof (split_head ERRORS_FOUND after header_nonempty) as Ha.
  cbv zeta in Ha.
  remember (nth 0 (split ERRORS_FOUND after) []) as t eqn:Dt.
  destruct Ha as (Ht & Hafter).
  assert (A : exists tail, after = t ++ tail /\
                          (tail = [] \/ startswith ERRORS_FOUND tail = true)).
  { destruct Hafter as [[_ Ea] | (r & _ & Ea)].
    - exists []. split; [now rewrite app_nil_r | now left].
    - exists (ERRORS_FOUND ++ r). split; [exact Ea|]. right.
      apply startswith_app. }
  clear Hafter Dt. destruct A as (tail & Eafter & Htail).
  pose proof (split_head SEPARATOR t separator_nonempty) as Hb.
  cbv zeta in Hb.
  assert (O : occurs (nth 0 (split SEPARATOR t) []) t)
    by apply ParserFacts.nth_split_occurs.
  remember (nth 0 (split SEPARATOR t) []) as sec eqn:Dsec.
  destruct Hb as (Hs & Hsec). clear Dsec.
  exists pre.
  destruct Hsec as [[_ Esec] | (r & Fsec & Et)].
  - exists tail. split.
    + rewrite E at 1. now rewrite Eafter, Esec.
    + split; [now apply contains_false_iff|].
      split; [exact (no_piece_inside _ _ _ O Ht)|].
      split; [now apply contains_false_iff|].
      destruct Htail as [-> | T]; [now left | right; now right].
  - exists (SEPARATOR ++ r ++ tail). split.
    + rewrite E at 1. rewrite Eafter. rewrite Et at 1.
      now rewrite <- !app_assoc.
    + split; [now apply contains_false_iff|].
      split; [exact (no_piece_inside _ _ _ O Ht)|].
      split; [now apply contains_false_iff|].
      right. left. split; [apply startswith_app|].
      intros L. destruct sec as [|c sec']; [discriminate|].
      destruct (@exists_last _ (c :: sec')) as (s' & z & Es); [discriminate|].
      rewrite Es in L, Et, Fsec. rewrite last_last in L. subst z.
      assert (Et' : t = s' ++ SEPARATOR ++ (EQUALS :: r)).
      { rewrite Et at 1. rewrite <- !app_assoc. reflexivity. }
      destruct (find_le SEPARATOR s' (EQUALS :: r)) as (j & Fj & Lj).
      rewrite <- Et', Fsec in Fj. injection Fj as Fj.
      rewrite length_app in Fj. cbn [length] in Fj. lia.
Qed.

Section Tables.

Variable isspace : char -> bool.
Variable isdigit : char -> bool.

Lemma entry_without_dot (line : str) :
  ~ occurs DOT_SPACE line -> entry line = line.
Proof.
  intros H. apply contains_false_iff in H. unfold entry. now rewrite H.
Qed.

Lemma entry_after_dot (a b : str) :
  ~ occurs DOT_SPACE a -> entry (a ++ DOT_SPACE ++ b) = b.
Proof.
  intros H. apply contains_false_iff in H. unfold entry.
  assert (C : contains DOT_SPACE (a ++ DOT_SPACE ++ b) = true)
    by (apply contains_iff; now exists a, b).
  rewrite C, split_n_first; [reflexivity|].
  change DOT_SPACE with (FULL_STOP :: lit " ") in *.
  apply clear_before_border_free; [|exact H].
  apply absent_by_test. reflexivity.
Qed.

(** C2, as the code has it.
    (1) The error list is non-empty only if the text contains
        "Errors Found:".
    (2) Every text that contains the header is [pre], the header, a
        section and [rest], where [pre] has no header, the section has no
        header and no run of ten "=", and the section ends at the end of
        the text, before the first "=" of a run of ten, or before the
        next header; the error list is then read from that section, and
    (3) it is so for every such cut of a text.
    (4) The entries are, in order, the lines of the section whose first
        character that is not white space is a digit,
    (5) each stripped and cut after its first ". ": the text after it,
        or the whole stripped line when it has none.
    (6) For a text that contains the unit-test text after a prefix
        without "Errors Found:", the list is ["foo", "bar"]. *)
Theorem error_list_of_section :
  (forall output,
      errors (parse_output isspace isdigit output) <> [] ->
      occurs ERRORS_FOUND output) /\
  (forall output,
      occurs ERRORS_FOUND output ->
      exists pre sec rest,
        output = pre ++ ERRORS_FOUND ++ sec ++ rest /\
        first_section pre sec rest /\
        errors (parse_output isspace isdigit output) =
        entries isspace isdigit sec) /\
  (forall pre sec rest,
      first_section pre sec rest ->
      errors (parse_output isspace isdigit
                (pre ++ ERRORS_FOUND ++ sec ++ rest)) =
      entries isspace isdigit sec) /\
  (forall line,
      numbered isspace isdigit line = true <->
      exists ws c tail, line = ws ++ c :: tail /\ forallb isspace ws = true /\
                        isspace c = false /\ isdigit c = true) /\
  (forall line,
      (~ occurs DOT_SPACE line -> entry line = line) /\
      (forall a b, line = a ++ DOT_SPACE ++ b -> ~ occurs DOT_SPACE a ->
                   entry line = b)) /\
  (forall pre rest,
      ascii_tables isspace isdigit -> ~ occurs ERRORS_FOUND pre ->
      errors (parse_output isspace isdigit (pre ++ errors_sample ++ rest)) =
      [lit "foo"; lit "bar"]).
Proof.
  destruct (ParserFacts.error_list_between isspace isdigit)
    as (P1 & _ & P3 & _ & P5).
  split; [exact P1|]. split; [|split; [|split; [exact P3|split; [|exact P5]]]].
  - intros output O. apply contains_iff in O.
    destruct (error_section_cut output O) as (pre & rest & E & S).
    exists pre, (error_section output), rest.
    split; [exact E|]. split; [exact S|].
    cbn [parse_output errors]. unfold extract_errors. now rewrite O.
  - intros pre sec rest S. cbn [parse_output errors]. unfold extract_errors.
    assert (C : contains ERRORS_FOUND (pre ++ ERRORS_FOUND ++ sec ++ rest) = true)
      by (apply contains_iff; now exists pre, (sec ++ rest)).
    now rewrite C, (error_section_first pre sec rest S).
  - intros line. split; [apply entry_without_dot|].
    intros a b -> H. now apply entry_after_dot.
Qed.

End Tables.

Lemma error_list_of_section_witness :
  errors (parse_output ascii_isspace ascii_isdigit
            (lit "Report" ++ errors_sample ++ lit " end")) =
  [lit "foo"; lit "bar"].
Proof.
  apply (proj2 (proj2 (proj2 (proj2 (proj2
           (error_list_of_section ascii_isspace ascii_isdigit)))))).
  - intros c _. split; reflexivity.
  - apply contains_false_iff. vm_compute. reflexivity.
Defined.

End SectionFacts.

(* ================================================================== *)
(** ** The bodies that get the 400 of the missing field *)
(* ================================================================== *)

Module MissingFieldFacts.
Import PyStr Parser Endpoint Shapes EndpointFacts.

Section Environment.

Variable isspace : char -> bool.
Variable isdigit : char -> bool.
Variable type_error : operation -> json -> str.
Variable tempname : list path -> attempt path.
Variable write_fails : path -> str -> option str.
Variable java : path -> list path -> process * list path.

Let validate_json :=
  validate_json isspace isdigit type_error tempname write_fails java.


End Environment.



End MissingFieldFacts.

(* ================================================================== *)
(** ** The error list and the valid flag *)
(* ================================================================== *)

Module VerdictFacts.
Import PyStr Parser Shapes PyStrFacts PyJoinFacts.

Lemma is_valid_false_iff (output : str) :
  is_valid output = false <->
  ~ occurs CHECK_VALID output /\
  (~ occurs VALID output \/ occurs INVALID output) /\
  ~ occurs WELL_FORMED output.
Proof.
  unfold is_valid. rewrite <- !contains_false_iff, <- contains_iff.
  destruct (contains CHECK_VALID output), (contains VALID output),
    (contains INVALID output), (contains WELL_FORMED output); cbn;
    intuition congruence.
Qed.

Section Tables.

Variable isspace : char -> bool.
Variable isdigit : char -> bool.

(** A text put in front that has no "E" changes nothing of the error
    list. *)
Lemma errors_after_prefix (p output : str) :
  ~ In 69%N p ->
  extract_errors isspace isdigit (p ++ output) =
  extract_errors isspace isdigit output.
Proof.
  intros H.
  assert (K : clear_before ERRORS_FOUND p output).
  { rewrite ParserFacts.header_head. now apply clear_before_head. }
  pose proof (find_app_clear K) as F.
  unfold extract_errors, error_section.
  rewrite (split_unfold SectionFacts.header_nonempty (p ++ output)),
    (split_unfold SectionFacts.header_nonempty output), F.
  destruct (find ERRORS_FOUND output) as [i|] eqn:E; cbn [option_map].
  - rewrite (SectionFacts.contains_by_find _ _ _ E).
    assert (C : contains ERRORS_FOUND (p ++ output) = true).
    { apply (SectionFacts.contains_by_find _ _ (length p + i)).
      rewrite F. reflexivity. }
    rewrite C. cbn [nth].
    rewrite skipn_app, skipn_all2 by lia. cbn [app].
    replace (length p + i + length ERRORS_FOUND - length p)
      with (i + length ERRORS_FOUND) by lia.
    reflexivity.
  - assert (C : contains ERRORS_FOUND (p ++ output) = false).
    { apply find_None_iff. rewrite F. reflexivity. }
    apply find_None_iff in E. now rewrite C, E.
Qed.

(** C8, as the code has it.  The error list does not decide [valid]:
    (1) "a non-empty error list implies [valid] false" holds for a text
        exactly when its error list is empty, or it has no check-mark
        banner, no well-formed phrase, and either has "INVALID JSON" or
        has no "VALID JSON";
    (2) any text, with the line "JSON is well-formed and structurally
        valid" put in front, keeps its error list and is valid. *)
Theorem errors_and_valid (output : str) :
  ((errors (parse_output isspace isdigit output) <> [] ->
    valid (parse_output isspace isdigit output) = false) <->
   (errors (parse_output isspace isdigit output) = [] \/
    (~ occurs CHECK_VALID output /\
     (~ occurs VALID output \/ occurs INVALID output) /\
     ~ occurs WELL_FORMED output))) /\
  errors (parse_output isspace isdigit (well_formed_line ++ output)) =
    errors (parse_output isspace isdigit output) /\
  valid (parse_output isspace isdigit (well_formed_line ++ output)) = true.
Proof.
  split; [|split].
  - cbn [parse_output errors valid]. rewrite <- is_valid_false_iff.
    destruct (extract_errors isspace isdigit output) as [|e l].
    + split; [now left | intros _ H; now elim H].
    + split.
      * intros H. right. apply H. discriminate.
      * intros [H | H] _; [discriminate | exact H].
  - cbn [parse_output errors]. apply errors_after_prefix.
    apply SectionFacts.absent_by_test. reflexivity.
  - cbn [parse_output valid]. unfold is_valid.
    assert (C : contains WELL_FORMED (well_formed_line ++ output) = true).
    { apply contains_iff. exists [], (nl :: output).
      unfold well_formed_line. now rewrite <- app_assoc. }
    rewrite C. apply orb_true_r.
Qed.

End Tables.

Lemma errors_and_valid_witness :
  errors (parse_output ascii_isspace ascii_isdigit
            (well_formed_line ++ invalid_report)) = [lit "foo"; lit "bar"] /\
  valid (parse_output ascii_isspace ascii_isdigit invalid_report) = false.
Proof.
  destruct (errors_and_valid ascii_isspace ascii_isdigit invalid_report)
    as (I & E & _).
  split.
  - rewrite E. reflexivity.
  - apply (proj2 I).
    + right. split; [|split].
      * apply contains_false_iff. reflexivity.
      * right. apply contains_iff. reflexivity.
      * apply contains_false_iff. reflexivity.
    + vm_compute. discriminate.
Defined.

End VerdictFacts.
